(** * Allma front end: request, streaming and demo-fallback engine

    A shallow embedding of
      - [allma-frontend/src/services/api.js]      (ApiService, ApiError),
      - [services/demoApi.js]                     (DemoApiService),
      - [hooks/index.js]                          (useHealthCheck, useDocuments),
    followed by the properties the specification states about them.

    Asynchronous functions are computations in a state-and-exception monad:
    a promise that resolves is [Resolved], one that rejects is [Rejected].
    Every call runs to completion before the next one starts; artificial
    delays ([delay], [setTimeout]) only postpone resolution and are left out.
    The backend and the wall clock are oracles of the environment. *)

From Stdlib Require Import String Ascii List ZArith NArith QArith Bool Lia DecimalString.
Import ListNotations.
Local Open Scope string_scope.
Local Open Scope Z_scope.
Set Warnings "-register-all".

(* ================================================================== *)
(** ** JavaScript values *)

(** Values read from JSON bodies and stored in object fields.  A JSON number
    literal is read as a rational; an object is the list of its own
    properties, with distinct keys. *)
Inductive value : Type :=
| VUndefined
| VNull
| VBool (b : bool)
| VNum (q : Q)
| VStr (s : string)
| VArr (items : list value)
| VObj (fields : list (string * value)).

Record JsError : Type := mkJsError { err_name : string; err_message : string }.

(** [class ApiError extends Error]: [message] holds the constructor's first
    argument (which [Error] stores through ToString, the identity on
    strings), [name] is the constant 'ApiError'. *)
Module ApiError.

Record t : Type := make { message : value; status : Z; code : value }.

Definition name (_ : t) : string := "ApiError".
Definition isNetworkError (e : t) : bool := status e =? 0.
Definition isServerError (e : t) : bool := status e >=? 500.
Definition isClientError (e : t) : bool := (status e >=? 400) && (status e <? 500).
Definition isNotFound (e : t) : bool := status e =? 404.
Definition isRateLimited (e : t) : bool := status e =? 429.

End ApiError.

(** What a [throw] or a rejected promise carries: an [ApiError] instance or
    an error of the platform (TypeError, SyntaxError, TimeoutError, ...). *)
Inductive exn : Type :=
| ExApiError (e : ApiError.t)
| ExJsError (e : JsError).

(** [error instanceof ApiError] *)
Definition instanceof_ApiError (e : exn) : bool :=
  match e with ExApiError _ => true | ExJsError _ => false end.

(** [error.message] of a thrown error. *)
Definition exn_message (e : exn) : value :=
  match e with
  | ExApiError a => ApiError.message a
  | ExJsError j => VStr (err_message j)
  end.

Inductive outcome (A : Type) : Type :=
| Resolved (a : A)
| Rejected (e : exn).
Arguments Resolved {A} a.
Arguments Rejected {A} e.

Definition is_resolved {A} (o : outcome A) : bool :=
  match o with Resolved _ => true | Rejected _ => false end.

(** JavaScript truthiness. *)
Definition truthy (v : value) : bool :=
  match v with
  | VUndefined | VNull => false
  | VBool b => b
  | VNum q => negb (Qnum q =? 0)
  | VStr s => negb (String.eqb s EmptyString)
  | VArr _ | VObj _ => true
  end.

(** [a || b] *)
Definition js_or (a b : value) : value := if truthy a then a else b.

(** [a ?? b] and the default of a destructured field. *)
Definition js_default (a b : value) : value :=
  match a with VUndefined => b | _ => a end.

Fixpoint own_property (k : string) (fields : list (string * value)) : value :=
  match fields with
  | [] => VUndefined
  | (k', v) :: rest => if String.eqb k k' then v else own_property k rest
  end.

Definition TypeError (msg : string) : JsError := mkJsError "TypeError" msg.

(** [v.k] for the data properties this code reads ([message], [code], [id],
    [content], [sources], [status], [chunks_created], ...): none of them
    lives on a built-in prototype, so only objects can have them; reading
    any property of [null] or [undefined] throws a TypeError. *)
Definition get_prop (v : value) (k : string) : outcome value :=
  match v with
  | VNull =>
      Rejected (ExJsError (TypeError ("Cannot read properties of null (reading '" ++ k ++ "')")))
  | VUndefined =>
      Rejected (ExJsError (TypeError ("Cannot read properties of undefined (reading '" ++ k ++ "')")))
  | VObj fields => Resolved (own_property k fields)
  | _ => Resolved VUndefined
  end.

(** Decimal text of an integer, as in a template literal or [toString()]. *)
Definition dec (z : Z) : string := NilZero.string_of_int (Z.to_int z).

(* ================================================================== *)
(** ** HTTP exchange *)

Record File : Type := mkFile { file_name : string; file_size : Z }.

Inductive form_value : Type :=
| FormFile (f : File)
| FormText (s : string).

(** A request body.  [JSON.stringify(x)] is kept as the value [x] it
    serialises. *)
Inductive body : Type :=
| BodyNone
| BodyJson (payload : value)
| BodyForm (parts : list (string * form_value)).

(** The [config] object handed to [fetch]. *)
Record config : Type := mkConfig {
  cfg_headers : option (list (string * string));
  cfg_method : option string;
  cfg_body : body;
  cfg_stream : bool;
  cfg_timeout : option Z
}.

Record request_sent : Type := mkSent { sent_url : string; sent_config : config }.

(** How a response body read through [getReader()] ends. *)
Inductive stream_end : Type :=
| EndOfStream
| ReadError (e : JsError).

(** The text of each chunk as [TextDecoder.decode(value, {stream: true})]
    yields it, and how the stream ends after them. *)
Record Stream : Type := mkStream { chunks : list string; ending : stream_end }.

Module Response.

Record t : Type := make {
  status : Z;
  json : JsError + value;        (* [response.json()]: rejects or resolves *)
  body : option Stream           (* [response.body], [null] when absent *)
}.

(** [response.ok]: the status is in the range 200-299. *)
Definition ok (r : t) : bool := (200 <=? status r) && (status r <=? 299).

End Response.

(** The environment: what the [n]-th [fetch] of the session does with a
    request, and what the [n]-th reading of the clock returns. *)
Record env : Type := mkEnv {
  backend : nat -> request_sent -> JsError + Response.t;
  clock : nat -> Z;
  loaded_at : string   (* [new Date().toISOString()] when demoApi.js was loaded *)
}.

(* ================================================================== *)
(** ** Program state *)

(** A record of the documents hook. *)
Record DocumentRecord : Type := mkDoc {
  doc_id : string;
  doc_name : string;
  doc_size : Z;
  doc_chunksCreated : value;
  doc_uploadedAt : Z;
  doc_status : string
}.

Inductive callback_event : Type :=
| OnToken (data : string)
| OnComplete (fullContent : string)
| OnError (e : exn).

Record world : Type := mkWorld {
  (* ApiService *)
  baseUrl : string;
  isDemoMode : bool;
  (* DemoApiService *)
  responseIndex : N;
  (* the network and the clock *)
  sent : list request_sent;
  ticks : nat;
  (* useHealthCheck *)
  hc_status : value;
  hc_lastCheck : option Z;
  hc_error : value;
  (* useDocuments *)
  documents : list DocumentRecord;
  isUploading : bool;
  uploadProgress : Z;
  docs_error : option exn;
  (* calls received by recording callbacks *)
  calls : list callback_event
}.

Definition set_baseUrl (x : string) (w : world) : world :=
  mkWorld x (isDemoMode w) (responseIndex w) (sent w) (ticks w)
          (hc_status w) (hc_lastCheck w) (hc_error w)
          (documents w) (isUploading w) (uploadProgress w) (docs_error w) (calls w).
Definition set_isDemoMode (x : bool) (w : world) : world :=
  mkWorld (baseUrl w) x (responseIndex w) (sent w) (ticks w)
          (hc_status w) (hc_lastCheck w) (hc_error w)
          (documents w) (isUploading w) (uploadProgress w) (docs_error w) (calls w).
Definition set_responseIndex (x : N) (w : world) : world :=
  mkWorld (baseUrl w) (isDemoMode w) x (sent w) (ticks w)
          (hc_status w) (hc_lastCheck w) (hc_error w)
          (documents w) (isUploading w) (uploadProgress w) (docs_error w) (calls w).
Definition set_sent (x : list request_sent) (w : world) : world :=
  mkWorld (baseUrl w) (isDemoMode w) (responseIndex w) x (ticks w)
          (hc_status w) (hc_lastCheck w) (hc_error w)
          (documents w) (isUploading w) (uploadProgress w) (docs_error w) (calls w).
Definition set_ticks (x : nat) (w : world) : world :=
  mkWorld (baseUrl w) (isDemoMode w) (responseIndex w) (sent w) x
          (hc_status w) (hc_lastCheck w) (hc_error w)
          (documents w) (isUploading w) (uploadProgress w) (docs_error w) (calls w).
Definition set_hc_status (x : value) (w : world) : world :=
  mkWorld (baseUrl w) (isDemoMode w) (responseIndex w) (sent w) (ticks w)
          x (hc_lastCheck w) (hc_error w)
          (documents w) (isUploading w) (uploadProgress w) (docs_error w) (calls w).
Definition set_hc_lastCheck (x : option Z) (w : world) : world :=
  mkWorld (baseUrl w) (isDemoMode w) (responseIndex w) (sent w) (ticks w)
          (hc_status w) x (hc_error w)
          (documents w) (isUploading w) (uploadProgress w) (docs_error w) (calls w).
Definition set_hc_error (x : value) (w : world) : world :=
  mkWorld (baseUrl w) (isDemoMode w) (responseIndex w) (sent w) (ticks w)
          (hc_status w) (hc_lastCheck w) x
          (documents w) (isUploading w) (uploadProgress w) (docs_error w) (calls w).
Definition set_documents (x : list DocumentRecord) (w : world) : world :=
  mkWorld (baseUrl w) (isDemoMode w) (responseIndex w) (sent w) (ticks w)
          (hc_status w) (hc_lastCheck w) (hc_error w)
          x (isUploading w) (uploadProgress w) (docs_error w) (calls w).
Definition set_isUploading (x : bool) (w : world) : world :=
  mkWorld (baseUrl w) (isDemoMode w) (responseIndex w) (sent w) (ticks w)
          (hc_status w) (hc_lastCheck w) (hc_error w)
          (documents w) x (uploadProgress w) (docs_error w) (calls w).
Definition set_uploadProgress (x : Z) (w : world) : world :=
  mkWorld (baseUrl w) (isDemoMode w) (responseIndex w) (sent w) (ticks w)
          (hc_status w) (hc_lastCheck w) (hc_error w)
          (documents w) (isUploading w) x (docs_error w) (calls w).
Definition set_docs_error (x : option exn) (w : world) : world :=
  mkWorld (baseUrl w) (isDemoMode w) (responseIndex w) (sent w) (ticks w)
          (hc_status w) (hc_lastCheck w) (hc_error w)
          (documents w) (isUploading w) (uploadProgress w) x (calls w).
Definition set_calls (x : list callback_event) (w : world) : world :=
  mkWorld (baseUrl w) (isDemoMode w) (responseIndex w) (sent w) (ticks w)
          (hc_status w) (hc_lastCheck w) (hc_error w)
          (documents w) (isUploading w) (uploadProgress w) (docs_error w) x.

(** A freshly loaded page: [new ApiService(url)], [new DemoApiService()],
    hooks at their initial [useState] values. *)
Definition initial_world (url : string) : world :=
  mkWorld url false 0%N [] 0%nat (VStr "unknown") None VNull [] false 0 None [].

(* ================================================================== *)
(** ** Asynchronous computations *)

Definition M (A : Type) : Type := env -> world -> outcome A * world.

Definition ret {A} (a : A) : M A := fun _ w => (Resolved a, w).

Definition throw {A} (e : exn) : M A := fun _ w => (Rejected e, w).

Definition bind {A B} (m : M A) (k : A -> M B) : M B :=
  fun E w =>
    match m E w with
    | (Resolved a, w') => k a E w'
    | (Rejected e, w') => (Rejected e, w')
    end.

(** [try { m } catch (error) { h error }] *)
Definition try_catch {A} (m : M A) (h : exn -> M A) : M A :=
  fun E w =>
    match m E w with
    | (Resolved a, w') => (Resolved a, w')
    | (Rejected e, w') => h e E w'
    end.

(** [try { m } finally { f }], for a [finally] block that cannot throw. *)
Definition try_finally {A} (m : M A) (f : world -> world) : M A :=
  fun E w => let (o, w') := m E w in (o, f w').

Definition gets {A} (f : world -> A) : M A := fun _ w => (Resolved (f w), w).

Definition modify (f : world -> world) : M unit := fun _ w => (Resolved tt, f w).

(** Completion of a synchronous expression that may throw. *)
Definition lift {A} (o : outcome A) : M A := fun _ w => (o, w).

Declare Scope async_scope.
Delimit Scope async_scope with async.
Notation "x <- m ;; k" := (bind m (fun x => k))
  (at level 61, m at next level, right associativity) : async_scope.
Notation "m ;;; k" := (bind m (fun _ => k))
  (at level 61, right associativity) : async_scope.
Local Open Scope async_scope.

(** [Date.now()] / [new Date()]: the next reading of the clock. *)
Definition Date_now : M Z :=
  fun E w => (Resolved (clock E (ticks w)), set_ticks (S (ticks w)) w).

(** [fetch(url, config)]: the request is logged and the backend decides. *)
Definition fetch (url : string) (cfg : config) : M Response.t :=
  fun E w =>
    let rq := mkSent url cfg in
    let w' := set_sent (sent w ++ [rq])%list w in
    match backend E (length (sent w)) rq with
    | inl e => (Rejected (ExJsError e), w')
    | inr r => (Resolved r, w')
    end.

(** [await response.json()] *)
Definition Response_json (r : Response.t) : M value :=
  match Response.json r with
  | inl e => throw (ExJsError e)
  | inr v => ret v
  end.

(* ================================================================== *)
(** ** Transport: [ApiService.request] and [checkBackendAvailable] *)

(** The [options] argument of [request]. *)
Record RequestOptions : Type := mkOptions {
  opt_method : option string;
  opt_body : body;
  opt_headers : option (list (string * string));
  opt_stream : bool
}.

Definition no_options : RequestOptions := mkOptions None BodyNone None false.

(** What [request] resolves with: the decoded JSON, or the response itself
    when [options.stream] is set. *)
Inductive Reply : Type :=
| Plain (v : value)
| Raw (r : Response.t).

(** [response.k] on what [request] resolved with.  A [Response] object has
    [status] and [ok] but none of the data properties. *)
Definition reply_prop (r : Reply) (k : string) : outcome value :=
  match r with
  | Plain v => get_prop v k
  | Raw resp =>
      Resolved (if String.eqb k "status" then VNum (inject_Z (Response.status resp))
                else if String.eqb k "ok" then VBool (Response.ok resp)
                else VUndefined)
  end.

(** [{ headers: {'Content-Type': ..., ...options.headers}, ...options }]:
    the trailing spread replaces [headers] when [options] has that key. *)
Definition request_config (options : RequestOptions) : config :=
  mkConfig
    (Some match opt_headers options with
          | Some h => h
          | None => [("Content-Type", "application/json")]
          end)
    (opt_method options) (opt_body options) (opt_stream options) None.

Definition request (endpoint : string) (options : RequestOptions) : M Reply :=
  base <- gets baseUrl ;;
  let url := base ++ endpoint in
  let config := request_config options in
  try_catch
    (response <- fetch url config ;;
     if negb (Response.ok response) then
       (* response.json().catch(() => ({})) *)
       error <- try_catch (Response_json response) (fun _ => ret (VObj [])) ;;
       m <- lift (get_prop error "message") ;;
       c <- lift (get_prop error "code") ;;
       throw (ExApiError
                (ApiError.make
                   (js_or m (VStr ("HTTP " ++ dec (Response.status response))))
                   (Response.status response)
                   c))
     else if opt_stream options then
       ret (Raw response)
     else
       v <- Response_json response ;;
       ret (Plain v))
    (fun error =>
       if instanceof_ApiError error then throw error
       else throw (ExApiError
                     (ApiError.make
                        (js_or (exn_message error) (VStr "Network error"))
                        0
                        (VStr "NETWORK_ERROR")))).

Definition checkBackendAvailable : M bool :=
  try_catch
    (base <- gets baseUrl ;;
     response <- fetch (base ++ "/health/")
                       (mkConfig None (Some "GET") BodyNone false (Some 3000)) ;;
     ret (Response.ok response))
    (fun _ => ret false).

(* ================================================================== *)
(** ** Chat data *)

(** The [options] of a chat call; a field left out is [VUndefined]. *)
Record ChatOptions : Type := mkChatOptions {
  conversationId : value;
  useRag : value;
  model : value;
  stream : value
}.

(** The object a chat call resolves with. *)
Record Message : Type := mkMessage {
  msg_id : value;
  msg_conversationId : value;
  msg_content : value;
  msg_model : value;
  msg_sources : value;
  msg_usage : value;
  msg_isDemo : value
}.

(** [xs[i]]: out of range reads [undefined]. *)
Definition index_string (xs : list string) (i : N) : value :=
  match nth_error xs (N.to_nat i) with
  | Some s => VStr s
  | None => VUndefined
  end.

(** [v.length] of an array. *)
Definition array_length (v : value) : option nat :=
  match v with VArr items => Some (length items) | _ => None end.

(* ================================================================== *)
(** ** Simulated responder: [DemoApiService] *)

Module DemoApiService.

Definition DEMO_RESPONSES : list string :=
  [ "Hello! I'm Allma AI, a RAG-powered assistant. This is a demo mode showcasing the application's capabilities. In production, I connect to local LLMs via Ollama for private, offline AI conversations.";
    "Great question! This application uses **Retrieval-Augmented Generation (RAG)** to enhance AI responses with your own documents. Key features:

- 🔒 **Privacy-first**: All processing happens locally
- 📚 **Document ingestion**: Upload PDFs, docs, and text files
- 🧠 **Vector search**: ChromaDB for semantic retrieval
- ⚡ **Fast inference**: Ollama with optimized models";
    "The tech stack includes:

**Frontend:**
- React 18 + Vite
- TailwindCSS
- Responsive design

**Backend:**
- FastAPI (Python)
- ChromaDB vector store
- Ollama LLM integration

**Deployment:**
- Docker & Kubernetes ready
- CI/CD with GitHub Actions";
    "I can help with various tasks:

1. **Code assistance** - Explain, debug, and generate code
2. **Document Q&A** - Answer questions about uploaded documents
3. **Research** - Summarize and analyze information
4. **Writing** - Draft emails, reports, and content

What would you like to explore?";
    "This demo showcases the UI and interaction patterns. In the full version:

- Connect to **Ollama** for local LLM inference
- Use **Groq API** for cloud-based fast inference
- Ingest documents for **RAG-powered** responses
- Maintain **conversation history** with context" ].

Definition DEMO_MODELS (E : env) : list value :=
  [ VObj [("name", VStr "deepseek-r1:latest"); ("size", VNum (inject_Z 5200000000));
          ("modified_at", VStr (loaded_at E))];
    VObj [("name", VStr "gemma2:9b"); ("size", VNum (inject_Z 5400000000));
          ("modified_at", VStr (loaded_at E))];
    VObj [("name", VStr "llama3.2:latest"); ("size", VNum (inject_Z 4700000000));
          ("modified_at", VStr (loaded_at E))];
    VObj [("name", VStr "nomic-embed-text:latest"); ("size", VNum (inject_Z 274000000));
          ("modified_at", VStr (loaded_at E))] ].

Definition DEMO_DOCUMENTS (E : env) : list value :=
  [ VObj [("id", VStr "1"); ("filename", VStr "project_documentation.pdf");
          ("chunk_count", VNum (inject_Z 45)); ("created_at", VStr (loaded_at E))];
    VObj [("id", VStr "2"); ("filename", VStr "api_reference.md");
          ("chunk_count", VNum (inject_Z 23)); ("created_at", VStr (loaded_at E))];
    VObj [("id", VStr "3"); ("filename", VStr "user_guide.docx");
          ("chunk_count", VNum (inject_Z 67)); ("created_at", VStr (loaded_at E))] ].

(** The synthetic source attached when RAG was asked for. *)
Definition demo_source : value :=
  VObj [("document", VStr "demo_doc.pdf"); ("relevance", VNum (95 # 100));
        ("snippet", VStr "Sample relevant content...")].

(** The counter is a JavaScript number; it is exact, and [responseIndex++]
    adds one, for every count a session can reach (below 2^53). *)
Definition sendMessage (message : string) (options : ChatOptions) : M Message :=
  i <- gets responseIndex ;;
  let response :=
    index_string DEMO_RESPONSES (i mod N.of_nat (length DEMO_RESPONSES))%N in
  modify (set_responseIndex (i + 1)%N) ;;;
  now <- Date_now ;;
  ret (mkMessage
         (VStr ("demo-" ++ dec now))
         (js_or (conversationId options) (VStr "demo-conversation"))
         response
         (VStr "demo-mode")
         (if truthy (useRag options) then VArr [demo_source] else VArr [])
         (VObj [("prompt_tokens", VNum (inject_Z 50));
                ("completion_tokens", VNum (inject_Z 150))])
         (VBool true)).

Definition getModels : M value :=
  fun E w =>
    (Resolved (VObj [("models", VArr (DEMO_MODELS E));
                     ("current_model", VStr "deepseek-r1:latest")]), w).

Definition getDocuments : M value :=
  fun E w =>
    (Resolved (VObj [("documents", VArr (DEMO_DOCUMENTS E));
                     ("total", VNum (inject_Z (Z.of_nat (length (DEMO_DOCUMENTS E)))))]), w).

Definition checkHealth : M value :=
  ret (VObj [("status", VStr "demo");
             ("version", VStr "2.0.0-demo");
             ("services",
              VArr [VObj [("name", VStr "frontend"); ("status", VStr "healthy")];
                    VObj [("name", VStr "demo-mode"); ("status", VStr "active")]]);
             ("message",
              VStr "Running in demo mode - connect backend for full functionality")]).

End DemoApiService.

(* ================================================================== *)
(** ** Client facade: [ApiService] *)

(** Callbacks of a streaming call; [None] is a callback left out, which
    [cb?.(x)] skips. *)
Record StreamCallbacks : Type := mkCallbacks {
  onToken : option (string -> M unit);
  onComplete : option (string -> M unit);
  onError : option (exn -> M unit)
}.

Definition call_opt {A} (cb : option (A -> M unit)) (x : A) : M unit :=
  match cb with
  | Some f => f x
  | None => ret tt
  end.

(** [chunk.split('\n')] *)
Fixpoint split_newline (s : string) : list string :=
  match s with
  | EmptyString => [EmptyString]
  | String c rest =>
      if Ascii.eqb c "010"%char then EmptyString :: split_newline rest
      else match split_newline rest with
           | [] => [String c EmptyString]
           | l :: ls => String c l :: ls
           end
  end.

(** [line.slice(n)] *)
Fixpoint slice (n : nat) (s : string) : string :=
  match n, s with
  | O, _ => s
  | S n', EmptyString => EmptyString
  | S n', String _ rest => slice n' rest
  end.

(** [line.startsWith(p)] *)
Definition startsWith (p line : string) : bool := String.prefix p line.

(** The options of [search]. *)
Record SearchOptions : Type := mkSearchOptions {
  topK : value;
  threshold : value;
  filterSource : value
}.

Module ApiService.

Definition setBaseUrl (url : string) : M unit := modify (set_baseUrl url).

Definition chat_payload (message : string) (options : ChatOptions) (stream : value) : value :=
  VObj [("message", VStr message);
        ("conversation_id", conversationId options);
        ("use_rag", js_default (useRag options) (VBool true));
        ("model", model options);
        ("stream", stream)].

(** The second argument of [this.request('/chat/', ...)] in [sendMessage]. *)
Definition chat_request (message : string) (options : ChatOptions) : RequestOptions :=
  mkOptions (Some "POST")
            (BodyJson (chat_payload message options
                         (js_default (stream options) (VBool false))))
            None false.

Definition sendMessage (message : string) (options : ChatOptions) : M Message :=
  (* this.isDemoMode || !(await this.checkBackendAvailable()) *)
  demo <- gets isDemoMode ;;
  fallback <- (if demo then ret true
               else (available <- checkBackendAvailable ;; ret (negb available))) ;;
  if fallback then
    modify (set_isDemoMode true) ;;;
    DemoApiService.sendMessage message options
  else
    try_catch
      (response <- request "/chat/" (chat_request message options) ;;
       id <- lift (reply_prop response "id") ;;
       conversation_id <- lift (reply_prop response "conversation_id") ;;
       content <- lift (reply_prop response "content") ;;
       model <- lift (reply_prop response "model") ;;
       sources <- lift (reply_prop response "sources") ;;
       usage <- lift (reply_prop response "usage") ;;
       ret (mkMessage id conversation_id content model
                      (js_or sources (VArr [])) usage VUndefined))
      (fun _ =>
         modify (set_isDemoMode true) ;;;
         DemoApiService.sendMessage message options).

(** The [for (const line of lines)] loop of [streamMessage] on one chunk:
    [inl full] when [[DONE]] made the function return, [inr full] when the
    loop ran to its end; [full] is [fullContent]. *)
Fixpoint stream_lines (cb : StreamCallbacks) (lines : list string) (fullContent : string)
  : M (string + string) :=
  match lines with
  | [] => ret (inr fullContent)
  | line :: rest =>
      if startsWith "data: " line then
        let data := slice 6 line in
        if String.eqb data "[DONE]" then
          call_opt (onComplete cb) fullContent ;;;
          ret (inl fullContent)
        else
          let fullContent' := fullContent ++ data in
          call_opt (onToken cb) data ;;;
          stream_lines cb rest fullContent'
      else stream_lines cb rest fullContent
  end.

(** The [while (true)] loop over [reader.read()]. *)
Fixpoint stream_read (cb : StreamCallbacks) (pending : list string) (fin : stream_end)
                     (fullContent : string) : M unit :=
  match pending with
  | [] =>
      match fin with
      | EndOfStream => call_opt (onComplete cb) fullContent
      | ReadError e => throw (ExJsError e)
      end
  | chunk :: rest =>
      r <- stream_lines cb (split_newline chunk) fullContent ;;
      match r with
      | inl _ => ret tt
      | inr fullContent' => stream_read cb rest fin fullContent'
      end
  end.

Definition streamMessage (message : string) (options : ChatOptions) (cb : StreamCallbacks)
  : M unit :=
  try_catch
    (response <- request "/chat/stream"
                   (mkOptions (Some "POST")
                      (BodyJson (chat_payload message options (VBool true)))
                      None true) ;;
     (* response.body.getReader() *)
     match response with
     | Raw r =>
         match Response.body r with
         | Some s => stream_read cb (chunks s) (ending s) EmptyString
         | None =>
             throw (ExJsError
                      (TypeError "Cannot read properties of null (reading 'getReader')"))
         end
     | Plain v =>
         b <- lift (get_prop v "body") ;;
         throw (ExJsError (TypeError "response.body.getReader is not a function"))
     end)
    (fun error => call_opt (onError cb) error ;;; throw error).

Definition uploadDocument (file : File) (source : option string) : M Reply :=
  let formData :=
    ([("file", FormFile file)] ++
     match source with
     | Some s => if negb (String.eqb s EmptyString) then [("source", FormText s)] else []
     | None => []
     end)%list in
  request "/rag/ingest/upload"
          (mkOptions (Some "POST") (BodyForm formData) (Some []) false).

Definition search (query : string) (options : SearchOptions) : M Reply :=
  request "/rag/search"
          (mkOptions (Some "POST")
             (BodyJson (VObj [("query", VStr query);
                              ("top_k", js_default (topK options) (VNum (inject_Z 5)));
                              ("threshold", threshold options);
                              ("filter_source", filterSource options)]))
             None false).

Definition getDocuments : M Reply :=
  demo <- gets isDemoMode ;;
  if demo then v <- DemoApiService.getDocuments ;; ret (Plain v)
  else
    try_catch (request "/rag/documents" no_options)
              (fun _ =>
                 modify (set_isDemoMode true) ;;;
                 v <- DemoApiService.getDocuments ;; ret (Plain v)).

Definition listModels : M Reply :=
  demo <- gets isDemoMode ;;
  if demo then v <- DemoApiService.getModels ;; ret (Plain v)
  else
    try_catch (request "/models/" no_options)
              (fun _ =>
                 modify (set_isDemoMode true) ;;;
                 v <- DemoApiService.getModels ;; ret (Plain v)).

Definition switchModel (modelName : string) : M Reply :=
  request "/models/switch"
          (mkOptions (Some "POST") (BodyJson (VObj [("model", VStr modelName)])) None false).

Definition healthCheck : M Reply :=
  demo <- gets isDemoMode ;;
  if demo then v <- DemoApiService.checkHealth ;; ret (Plain v)
  else
    try_catch (request "/health/" no_options)
              (fun _ =>
                 modify (set_isDemoMode true) ;;;
                 v <- DemoApiService.checkHealth ;; ret (Plain v)).

End ApiService.

(* ================================================================== *)
(** ** Session state controllers: [useHealthCheck], [useDocuments] *)

Module Hooks.

(** [checkHealth] of [useHealthCheck]. *)
Definition checkHealth : M unit :=
  try_catch
    (response <- ApiService.healthCheck ;;
     st <- lift (reply_prop response "status") ;;
     modify (set_hc_status st) ;;;
     modify (set_hc_error VNull))
    (fun err =>
       modify (set_hc_status (VStr "unhealthy")) ;;;
       modify (set_hc_error (exn_message err))) ;;;
  now <- Date_now ;;
  modify (set_hc_lastCheck (Some now)).

(** [uploadDocument] of [useDocuments].  The fields of [newDoc] are
    evaluated in the order they are written. *)
Definition uploadDocument (file : File) : M Reply :=
  modify (set_isUploading true) ;;;
  modify (set_uploadProgress 0) ;;;
  modify (set_docs_error None) ;;;
  try_finally
    (try_catch
       (response <- ApiService.uploadDocument file None ;;
        id <- Date_now ;;
        chunks_created <- lift (reply_prop response "chunks_created") ;;
        uploadedAt <- Date_now ;;
        let newDoc :=
          mkDoc (dec id) (file_name file) (file_size file)
                chunks_created uploadedAt "indexed" in
        modify (fun w => set_documents (documents w ++ [newDoc])%list w) ;;;
        modify (set_uploadProgress 100) ;;;
        ret response)
       (fun err => modify (set_docs_error (Some err)) ;;; throw err))
    (set_isUploading false).

(** One entry of the list [uploadMultiple] resolves with. *)
Record UploadResult : Type := mkUploadResult {
  ur_file : string;
  ur_success : bool;
  ur_result : option Reply;
  ur_error : option exn
}.

(** The [for (const file of files)] loop of [uploadMultiple]. *)
Fixpoint uploadMultiple_from (files : list File) (results : list UploadResult)
  : M (list UploadResult) :=
  match files with
  | [] => ret results
  | file :: rest =>
      entry <- try_catch
                 (result <- uploadDocument file ;;
                  ret (mkUploadResult (file_name file) true (Some result) None))
                 (fun err =>
                    ret (mkUploadResult (file_name file) false None (Some err))) ;;
      uploadMultiple_from rest (results ++ [entry])%list
  end.

Definition uploadMultiple (files : list File) : M (list UploadResult) :=
  uploadMultiple_from files [].

End Hooks.

(* ================================================================== *)
(** ** Sequences of single-shot facade calls *)

Inductive call : Type :=
| SendMessage (message : string) (options : ChatOptions)
| UploadDocument (file : File) (source : option string)
| Search (query : string) (options : SearchOptions)
| GetDocuments
| ListModels
| SwitchModel (modelName : string)
| HealthCheck
| SetBaseUrl (url : string).

Inductive answer : Type :=
| AMessage (m : Message)
| AReply (r : Reply)
| ANothing.

Definition as_message (m : M Message) : M answer := x <- m ;; ret (AMessage x).
Definition as_reply (m : M Reply) : M answer := x <- m ;; ret (AReply x).
Definition as_plain (m : M value) : M answer := x <- m ;; ret (AReply (Plain x)).

Definition run_call (c : call) : M answer :=
  match c with
  | SendMessage message options => as_message (ApiService.sendMessage message options)
  | UploadDocument file source => as_reply (ApiService.uploadDocument file source)
  | Search query options => as_reply (ApiService.search query options)
  | GetDocuments => as_reply ApiService.getDocuments
  | ListModels => as_reply ApiService.listModels
  | SwitchModel modelName => as_reply (ApiService.switchModel modelName)
  | HealthCheck => as_reply ApiService.healthCheck
  | SetBaseUrl url => x <- ApiService.setBaseUrl url ;; ret ANothing
  end.

(** The operation of the simulated responder that stands in for a call,
    for the calls the facade routes through [isDemoMode]. *)
Definition simulated (c : call) : option (M answer) :=
  match c with
  | SendMessage message options => Some (as_message (DemoApiService.sendMessage message options))
  | GetDocuments => Some (as_plain DemoApiService.getDocuments)
  | ListModels => Some (as_plain DemoApiService.getModels)
  | HealthCheck => Some (as_plain DemoApiService.checkHealth)
  | UploadDocument _ _ | Search _ _ | SwitchModel _ | SetBaseUrl _ => None
  end.

(** One call of a session: the state it started from, what it settled
    with, and the state it left. *)
Record step : Type := mkStep {
  step_call : call;
  before : world;
  settled : outcome answer;
  after : world
}.

(** The calls of [cs] issued one after another, each after the previous one
    has settled (whether it resolved or rejected). *)
Fixpoint session (cs : list call) (E : env) (w : world) : list step :=
  match cs with
  | [] => []
  | c :: rest =>
      let (o, w') := run_call c E w in
      mkStep c w o w' :: session rest E w'
  end.

(* ================================================================== *)
(** ** Recording callbacks *)

Definition record_call (ev : callback_event) : M unit :=
  modify (fun w => set_calls (calls w ++ [ev])%list w).

(** Callbacks that only record the calls they receive. *)
Definition recorder : StreamCallbacks :=
  mkCallbacks (Some (fun data => record_call (OnToken data)))
              (Some (fun full => record_call (OnComplete full)))
              (Some (fun e => record_call (OnError e))).

(* ================================================================== *)
(** ** Vocabulary of the statements *)

(** The error [request] builds from a failure that is not an [ApiError]. *)
Definition network_error (e : exn) : ApiError.t :=
  ApiError.make (js_or (exn_message e) (VStr "Network error")) 0 (VStr "NETWORK_ERROR").

(** The request that [request endpoint options] hands to [fetch]. *)
Definition request_of (w : world) (endpoint : string) (options : RequestOptions)
  : request_sent :=
  mkSent (baseUrl w ++ endpoint) (request_config options).

(** What the backend does with it. *)
Definition answer_to (E : env) (w : world) (endpoint : string) (options : RequestOptions)
  : JsError + Response.t :=
  backend E (length (sent w)) (request_of w endpoint options).

(** The state once it has been sent. *)
Definition logged (w : world) (rq : request_sent) : world :=
  set_sent (sent w ++ [rq])%list w.

(** The body of an error response as [request] reads it. *)
Definition error_body (r : Response.t) : value :=
  match Response.json r with
  | inl _ => VObj []
  | inr v => v
  end.

(** The request [checkBackendAvailable] sends, and whether it reports the
    backend as unavailable. *)
Definition probe_of (w : world) : request_sent :=
  mkSent (baseUrl w ++ "/health/") (mkConfig None (Some "GET") BodyNone false (Some 3000)).

Definition probe_fails (E : env) (w : world) : bool :=
  match backend E (length (sent w)) (probe_of w) with
  | inl _ => true
  | inr r => negb (Response.ok r)
  end.

(** The Transport call of [sendMessage], made after the probe. *)
Definition chat_reply (E : env) (w : world) (message : string) (options : ChatOptions)
  : outcome Reply * world :=
  request "/chat/" (ApiService.chat_request message options) E (logged w (probe_of w)).

(** The call threw, or resolved with [null], whose fields cannot be read. *)
Definition unusable (o : outcome Reply) : bool :=
  match o with
  | Resolved r => negb (is_resolved (reply_prop r "id"))
  | Rejected _ => true
  end.

(** The conditions under which [sendMessage] turns to the simulated
    responder. *)
Definition falls_back (E : env) (w : world) (message : string) (options : ChatOptions)
  : bool :=
  isDemoMode w || probe_fails E w || unusable (fst (chat_reply E w message options)).



(** The Message [sendMessage] builds from a reply of the backend, when its
    fields can be read. *)
Definition real_message (r : Reply) : option Message :=
  match reply_prop r "id", reply_prop r "conversation_id", reply_prop r "content",
        reply_prop r "model", reply_prop r "sources", reply_prop r "usage" with
  | Resolved id, Resolved cid, Resolved content, Resolved model,
    Resolved sources, Resolved usage =>
      Some (mkMessage id cid content model (js_or sources (VArr [])) usage VUndefined)
  | _, _, _, _, _, _ => None
  end.

(** The Message of the simulated responder at counter [i] and time [now]. *)
Definition demo_message (i : N) (now : Z) (options : ChatOptions) : Message :=
  mkMessage
    (VStr ("demo-" ++ dec now))
    (js_or (conversationId options) (VStr "demo-conversation"))
    (index_string DemoApiService.DEMO_RESPONSES (i mod 5)%N)
    (VStr "demo-mode")
    (if truthy (useRag options) then VArr [DemoApiService.demo_source] else VArr [])
    (VObj [("prompt_tokens", VNum (inject_Z 50));
           ("completion_tokens", VNum (inject_Z 150))])
    (VBool true).

(** A backend nobody answers at. *)
Definition unreachable : env :=
  mkEnv (fun _ _ => inl (TypeError "Failed to fetch")) (fun n => 1700000000000 + Z.of_nat n)
        "2024-01-01T00:00:00.000Z".

(** A backend that answers every request with the given status and a body
    that is not JSON. *)
Definition answering_text (status : Z) : env :=
  mkEnv (fun _ _ =>
           inr (Response.make status
                  (inl (mkJsError "SyntaxError" "Unexpected token '<'")) None))
        (fun n => 1700000000000 + Z.of_nat n)
        "2024-01-01T00:00:00.000Z".

(** A backend that answers every request with the given status and body. *)
Definition answering (status : Z) (reply : value) : env :=
  mkEnv (fun _ _ => inr (Response.make status (inr reply) None))
        (fun n => 1700000000000 + Z.of_nat n)
        "2024-01-01T00:00:00.000Z".

Definition no_chat_options : ChatOptions :=
  mkChatOptions VUndefined VUndefined VUndefined VUndefined.

Definition without_rag : ChatOptions :=
  mkChatOptions VUndefined (VBool false) VUndefined VUndefined.

Definition with_rag : ChatOptions :=
  mkChatOptions VUndefined (VBool true) VUndefined VUndefined.

Definition localhost : string := "http://localhost:8000".



(** The hits a [sources] field stands for: the elements of an array, none
    when the field is absent; anything else is not a list of hits. *)
Definition hits (sources : value) : option (list value) :=
  match sources with
  | VArr items => Some items
  | VUndefined | VNull => Some []
  | _ => None
  end.

(** The property as the specification words it for [useRag: false]. *)
Definition no_sources_without_rag : Prop :=
  forall E w message options m w',
    useRag options = VBool false ->
    ApiService.sendMessage message options E w = (Resolved m, w') ->
    msg_sources m = VArr [].

(** A backend reply that carries one retrieval hit. *)
Definition reply_with_hit : value :=
  VObj [("id", VStr "m1"); ("conversation_id", VStr "c1"); ("content", VStr "Paris.");
        ("model", VStr "gemma2:9b");
        ("sources", VArr [VObj [("document", VStr "atlas.pdf");
                                ("relevance", VNum (87 # 100));
                                ("snippet", VStr "Paris is the capital of France.")]])].

(** The second argument of [this.request('/models/switch', ...)]. *)
Definition switch_request (modelName : string) : RequestOptions :=
  mkOptions (Some "POST") (BodyJson (VObj [("model", VStr modelName)])) None false.

(** The property as the specification words it: with the flag set, no
    single-shot call issues a Transport request. *)
Definition latch_covers_every_call : Prop :=
  forall E w c, isDemoMode w = true -> sent (snd (run_call c E w)) = sent w.

(** What holds of a call made while the flag is set. *)
Definition latched_step (E : env) (s : step) : Prop :=
  isDemoMode (after s) = true
  /\ match simulated (step_call s) with
     | Some d =>
         (settled s, after s) = d E (before s)
         /\ is_resolved (settled s) = true
         /\ sent (after s) = sent (before s)
     | None => True
     end
  /\ match step_call s with
     | SwitchModel modelName =>
         sent (after s) =
           (sent (before s)
              ++ [request_of (before s) "/models/switch" (switch_request modelName)])%list
     | _ => True
     end.

(** The state a first chat call leaves when nobody answers. *)
Definition after_failed_chat : world :=
  snd (run_call (SendMessage "hi" no_chat_options) unreachable (initial_world localhost)).



(** The backend answers 2xx with a body that decodes. *)
Definition accepts (ans : JsError + Response.t) : bool :=
  match ans with
  | inl _ => false
  | inr r =>
      Response.ok r && match Response.json r with inr _ => true | inl _ => false end
  end.

(** A backend that is back: every request is answered 200 with [{}]. *)
Definition recovered : env := answering 200 (VObj []).

(** Tokens put together in the order they were delivered. *)
Definition join (tokens : list string) : string := fold_right String.append EmptyString tokens.

(** A line that terminates the stream: 'data: [DONE]'. *)
Definition is_done_line (line : string) : bool :=
  startsWith "data: " line && String.eqb (slice 6 line) "[DONE]".

Definition has_done (chunk : string) : bool := existsb is_done_line (split_newline chunk).

(** The stream terminates successfully: a chunk carries the terminator, or
    the body ends without a read error. *)
Definition stream_completes (s : Stream) : bool :=
  existsb has_done (chunks s)
  || match ending s with EndOfStream => true | ReadError _ => false end.

(** The second argument of [this.request('/chat/stream', ...)]. *)
Definition stream_request (message : string) (options : ChatOptions) : RequestOptions :=
  mkOptions (Some "POST")
            (BodyJson (ApiService.chat_payload message options (VBool true)))
            None true.

(** The body stream the backend delivers for a streaming call, if any. *)
Definition delivered (E : env) (w : world) (message : string) (options : ChatOptions)
  : option Stream :=
  match answer_to E w "/chat/stream" (stream_request message options) with
  | inl _ => None
  | inr r => if Response.ok r then Response.body r else None
  end.

Definition newline : string := String "010"%char EmptyString.

(** A backend that streams the tokens 'Hel' and 'lo' and then the
    terminator, one line per chunk. *)
Definition hello_stream : env :=
  mkEnv (fun _ _ =>
           inr (Response.make 200 (inl (TypeError "body stream already read"))
                  (Some (mkStream ["data: Hel" ++ newline;
                                   "data: lo" ++ newline;
                                   "data: [DONE]" ++ newline]
                                  EndOfStream))))
        (fun n => 1700000000000 + Z.of_nat n)
        "2024-01-01T00:00:00.000Z".


(** Calls of the simulated responder's chat operation, one after another. *)
Fixpoint demo_chats (args : list (string * ChatOptions)) : M (list Message) :=
  match args with
  | [] => ret []
  | (message, options) :: rest =>
      m <- DemoApiService.sendMessage message options ;;
      ms <- demo_chats rest ;;
      ret (m :: ms)
  end.

(** What the [sendMessage] calls of a session settled with, in order. *)
Fixpoint chat_replies (steps : list step) : list (outcome answer) :=
  match steps with
  | [] => []
  | s :: rest =>
      match step_call s with
      | SendMessage _ _ => settled s :: chat_replies rest
      | _ => chat_replies rest
      end
  end.

(** What a call of a session does to the counter of the simulated
    responder.  A [sendMessage] that falls back resolves with the canned
    string at the counter modulo 5, moves the counter by one and leaves the
    flag set; a [sendMessage] answered by the backend, and every other
    call, leave the counter where it was. *)
Definition chat_step (E : env) (s : step) : Prop :=
  match step_call s with
  | SendMessage message options =>
      if falls_back E (before s) message options
      then exists m text,
          settled s = Resolved (AMessage m)
          /\ msg_content m = VStr text
          /\ nth_error DemoApiService.DEMO_RESPONSES
                       (N.to_nat (responseIndex (before s) mod 5)) = Some text
          /\ responseIndex (after s) = (responseIndex (before s) + 1)%N
          /\ isDemoMode (after s) = true
      else responseIndex (after s) = responseIndex (before s)
  | _ => responseIndex (after s) = responseIndex (before s)
  end.

(** Every [sendMessage] of the session left the flag set. *)
Definition chat_sets_flag (s : step) : Prop :=
  match step_call s with
  | SendMessage _ _ => isDemoMode (after s) = true
  | _ => True
  end.

(** Nobody answers at the backend. *)
Definition backend_down (E : env) : Prop :=
  forall k rq, exists e, backend E k rq = inl e.

(** The second argument of [this.request('/rag/ingest/upload', ...)] when
    the hook uploads [file] (no [source]). *)
Definition upload_options (file : File) : RequestOptions :=
  mkOptions (Some "POST") (BodyForm [("file", FormFile file)]) (Some []) false.

(** The upload of [file], sent to [base] as the [n]-th request of the
    session, succeeds: the backend answers 2xx with a JSON body whose
    [chunks_created] can be read. *)
Definition upload_succeeds (E : env) (base : string) (n : nat) (file : File) : bool :=
  match backend E n (mkSent (base ++ "/rag/ingest/upload")
                            (request_config (upload_options file))) with
  | inl _ => false
  | inr r =>
      Response.ok r
      && match Response.json r with
         | inr v => is_resolved (get_prop v "chunks_created")
         | inl _ => false
         end
  end.

(** Which uploads of a batch succeed, the first being request number [n]. *)
Fixpoint upload_flags (E : env) (base : string) (n : nat) (files : list File) : list bool :=
  match files with
  | [] => []
  | file :: rest => upload_succeeds E base n file :: upload_flags E base (S n) rest
  end.

Definition indexed (d : DocumentRecord) : Prop := doc_status d = "indexed".

(** The entries of a batch result reported as failed. *)
Definition failed (results : list Hooks.UploadResult) : list Hooks.UploadResult :=
  filter (fun r => negb (Hooks.ur_success r)) results.

(** A backend that fails the request number [k] and answers every other
    one 200 with the given body. *)
Definition failing_at (k : nat) (reply : value) : env :=
  mkEnv (fun n _ =>
           if Nat.eqb n k then inl (TypeError "Failed to fetch")
           else inr (Response.make 200 (inr reply) None))
        (fun n => 1700000000000 + Z.of_nat n)
        "2024-01-01T00:00:00.000Z".

Definition three_files : list File :=
  [mkFile "a.pdf" 1000; mkFile "b.md" 200; mkFile "c.docx" 3000].

(* ================================================================== *)
(** ** The remaining endpoints of [ApiService] *)

Module Endpoints.

Definition getConversation (conversationId : string) : M Reply :=
  request ("/chat/conversation/" ++ conversationId) no_options.

Definition deleteConversation (conversationId : string) : M Reply :=
  request ("/chat/conversation/" ++ conversationId)
          (mkOptions (Some "DELETE") BodyNone None false).

Definition listConversations : M Reply :=
  request "/chat/conversations" no_options.

(** [source = 'direct_input'] and [metadata = {}] are parameter defaults. *)
Definition ingestText (text : string) (source metadata : value) : M Reply :=
  request "/rag/ingest"
          (mkOptions (Some "POST")
             (BodyJson (VObj [("text", VStr text);
                              ("source", js_default source (VStr "direct_input"));
                              ("metadata", js_default metadata (VObj []))]))
             None false).

Definition ingestFile (filePath : string) (metadata : value) : M Reply :=
  request "/rag/ingest"
          (mkOptions (Some "POST")
             (BodyJson (VObj [("file_path", VStr filePath);
                              ("metadata", js_default metadata (VObj []))]))
             None false).

Definition deleteDocument (documentId : string) : M Reply :=
  request ("/rag/documents/" ++ documentId)
          (mkOptions (Some "DELETE") BodyNone None false).

Definition getRAGStats : M Reply := request "/rag/stats" no_options.

Definition pullModel (modelName : string) : M Reply :=
  request "/models/pull"
          (mkOptions (Some "POST") (BodyJson (VObj [("model", VStr modelName)])) None false).

Definition liveness : M Reply := request "/health/live" no_options.

Definition readiness : M Reply := request "/health/ready" no_options.

Definition getConfig : M Reply := request "/health/config" no_options.

End Endpoints.

(** The methods of [ApiService] that hand their arguments to [request] and
    return what it returns. *)
Inductive passthrough : Type :=
| PGetConversation (conversationId : string)
| PDeleteConversation (conversationId : string)
| PListConversations
| PIngestText (text : string) (source metadata : value)
| PIngestFile (filePath : string) (metadata : value)
| PUploadDocument (file : File) (source : option string)
| PSearch (query : string) (options : SearchOptions)
| PDeleteDocument (documentId : string)
| PGetRAGStats
| PSwitchModel (modelName : string)
| PPullModel (modelName : string)
| PLiveness
| PReadiness
| PGetConfig.

Definition run_passthrough (p : passthrough) : M Reply :=
  match p with
  | PGetConversation id => Endpoints.getConversation id
  | PDeleteConversation id => Endpoints.deleteConversation id
  | PListConversations => Endpoints.listConversations
  | PIngestText text source metadata => Endpoints.ingestText text source metadata
  | PIngestFile filePath metadata => Endpoints.ingestFile filePath metadata
  | PUploadDocument file source => ApiService.uploadDocument file source
  | PSearch query options => ApiService.search query options
  | PDeleteDocument id => Endpoints.deleteDocument id
  | PGetRAGStats => Endpoints.getRAGStats
  | PSwitchModel modelName => ApiService.switchModel modelName
  | PPullModel modelName => Endpoints.pullModel modelName
  | PLiveness => Endpoints.liveness
  | PReadiness => Endpoints.readiness
  | PGetConfig => Endpoints.getConfig
  end.

(** The endpoint of the three getters that fall back to the simulated
    responder. *)
Definition getter_path (c : call) : option string :=
  match c with
  | GetDocuments => Some "/rag/documents"
  | ListModels => Some "/models/"
  | HealthCheck => Some "/health/"
  | _ => None
  end.

(** The last request of a log. *)
Definition last_sent (w : world) : option request_sent := last (map Some (sent w)) None.

(** The JSON payload of a request. *)
Definition payload_of (rq : request_sent) : value :=
  match cfg_body (sent_config rq) with
  | BodyJson v => v
  | _ => VUndefined
  end.

(** A line carries data for the stream loop. *)
Definition is_data_line (line : string) : bool := startsWith "data: " line.

(** No newline in the text. *)
Fixpoint no_newline (s : string) : bool :=
  match s with
  | EmptyString => true
  | String c rest => negb (Ascii.eqb c "010"%char) && no_newline rest
  end.

(** Newlines in the text. *)
Fixpoint count_newlines (s : string) : nat :=
  match s with
  | EmptyString => O
  | String c rest =>
      if Ascii.eqb c "010"%char then S (count_newlines rest) else count_newlines rest
  end.

(** A backend that answers the request number [k] with 500 and every other
    one 200 with the given body. *)
Definition erring_at (k : nat) (reply : value) : env :=
  mkEnv (fun n _ =>
           if Nat.eqb n k
           then inr (Response.make 500 (inr (VObj [("message", VStr "boom")])) None)
           else inr (Response.make 200 (inr reply) None))
        (fun n => 1700000000000 + Z.of_nat n)
        "2024-01-01T00:00:00.000Z".

(* ================================================================== *)
(** ** More of the documents controller, and its page *)

Module Documents.

(** [deleteDocument] of [useDocuments]. *)
Definition deleteDocument (docId : string) : M unit :=
  try_catch
    (Endpoints.deleteDocument docId ;;;
     modify (fun w =>
               set_documents
                 (filter (fun d => negb (String.eqb (doc_id d) docId)) (documents w)) w))
    (fun err => modify (set_docs_error (Some err)) ;;; throw err).

(** [clearAll] of [useDocuments]. *)
Definition clearAll : M unit := modify (set_documents []).

(** The [for] loop of [handleUpload] in the documents page; the [catch]
    only writes to the console. *)
Fixpoint handleUpload_each (files : list File) : M unit :=
  match files with
  | [] => ret tt
  | file :: rest =>
      try_catch (Hooks.uploadDocument file ;;; ret tt) (fun _ => ret tt) ;;;
      handleUpload_each rest
  end.

(** [handleUpload(files)]: [None] is a missing list, for which
    [files?.length] is [undefined]; the length of an empty list is falsy
    too. *)
Definition handleUpload (files : option (list File)) : M unit :=
  match files with
  | None => ret tt
  | Some [] => ret tt
  | Some fs => handleUpload_each fs
  end.

End Documents.

(** Two states agree on everything but the record of callback calls. *)
Definition only_calls_differ (w w' : world) : Prop :=
  baseUrl w' = baseUrl w
  /\ isDemoMode w' = isDemoMode w
  /\ responseIndex w' = responseIndex w
  /\ sent w' = sent w
  /\ ticks w' = ticks w
  /\ hc_status w' = hc_status w
  /\ hc_lastCheck w' = hc_lastCheck w
  /\ hc_error w' = hc_error w
  /\ documents w' = documents w
  /\ isUploading w' = isUploading w
  /\ uploadProgress w' = uploadProgress w
  /\ docs_error w' = docs_error w.

(** A backend that streams the given chunks and then ends the body. *)
Definition streaming (body_chunks : list string) : env :=
  mkEnv (fun _ _ =>
           inr (Response.make 200 (inl (TypeError "body stream already read"))
                  (Some (mkStream body_chunks EndOfStream))))
        (fun n => 1700000000000 + Z.of_nat n)
        "2024-01-01T00:00:00.000Z".

(** The options of the DELETE requests. *)
Definition delete_options : RequestOptions := mkOptions (Some "DELETE") BodyNone None false.

(** A collection with two records. *)
Definition two_documents : list DocumentRecord :=
  [mkDoc "1700000000001" "a.pdf" 1000 (VNum (inject_Z 4)) 1700000000002 "indexed";
   mkDoc "1700000000005" "b.md" 200 (VNum (inject_Z 1)) 1700000000006 "indexed"].

(* ================================================================== *)
(** ** Text helpers of the platform *)

(** Strings are UTF-8 texts.  [is_space c] holds for the one-byte white
    space and line terminators of JavaScript: tab, line feed, vertical tab,
    form feed, carriage return and space. *)
Definition is_space (c : ascii) : bool :=
  let n := nat_of_ascii c in
  ((9 <=? n)%nat && (n <=? 13)%nat) || (n =? 32)%nat.

(** The two-byte white space: U+00A0. *)
Definition is_space2 (c1 c2 : ascii) : bool :=
  (nat_of_ascii c1 =? 194)%nat && (nat_of_ascii c2 =? 160)%nat.

(** The three-byte white space: U+1680, U+2000 to U+200A, U+2028, U+2029,
    U+202F, U+205F, U+3000 and U+FEFF. *)
Definition is_space3 (c1 c2 c3 : ascii) : bool :=
  let a := nat_of_ascii c1 in
  let b := nat_of_ascii c2 in
  let c := nat_of_ascii c3 in
  ((a =? 225) && (b =? 154) && (c =? 128))%nat
  || ((a =? 226) && (b =? 128)
      && (((128 <=? c) && (c <=? 138)) || (c =? 168) || (c =? 169) || (c =? 175)))%nat
  || ((a =? 226) && (b =? 129) && (c =? 159))%nat
  || ((a =? 227) && (b =? 128) && (c =? 128))%nat
  || ((a =? 239) && (b =? 187) && (c =? 191))%nat.

(** [!s.trim()]: the text is empty or white space only. *)
Fixpoint blank (s : string) : bool :=
  match s with
  | EmptyString => true
  | String c1 r1 =>
      if is_space c1 then blank r1
      else match r1 with
           | EmptyString => false
           | String c2 r2 =>
               if is_space2 c1 c2 then blank r2
               else match r2 with
                    | EmptyString => false
                    | String c3 r3 => if is_space3 c1 c2 c3 then blank r3 else false
                    end
           end
  end.

(** [a ?? b] *)
Definition js_nullish (a b : value) : value :=
  match a with
  | VUndefined | VNull => b
  | _ => a
  end.

Section Platform.

(** The text of a number, [Number::toString], is left to the platform. *)
Variable number_text : Q -> string.

(** ToString, as in a template literal: arrays join the texts of their
    elements with commas, [null] and [undefined] elements giving nothing;
    plain objects give '[object Object]'. *)
Fixpoint text_of (v : value) : string :=
  match v with
  | VUndefined => "undefined"
  | VNull => "null"
  | VBool true => "true"
  | VBool false => "false"
  | VNum q => number_text q
  | VStr s => s
  | VArr items =>
      (fix join_texts (l : list value) : string :=
         match l with
         | [] => EmptyString
         | x :: rest =>
             match x with
             | VUndefined | VNull => EmptyString
             | _ => text_of x
             end
             ++ match rest with
                | [] => EmptyString
                | _ :: _ => "," ++ join_texts rest
                end
         end) items
  | VObj _ => "[object Object]"
  end.

End Platform.

(* ================================================================== *)
(** ** Chat, search and models controllers, and the settings page *)

(** A message of the chat controller; [cm_isError] is [false] where the
    field is absent. *)
Record ChatMessage : Type := mkChatMessage {
  cm_role : string;
  cm_content : value;
  cm_timestamp : Z;
  cm_sources : value;
  cm_usage : value;
  cm_isError : bool
}.

(** The [settings] the controllers read; an empty [apiUrl] is falsy. *)
Record Settings : Type := mkSettings {
  apiUrl : string;
  useRAG : value;
  settings_model : value
}.

Record TestResult : Type := mkTestResult { test_success : bool; test_message : string }.

(** The state of the controllers on top of the state of the services. *)
Record ui : Type := mkUi {
  core : world;
  (* useChat *)
  messages : list ChatMessage;
  chat_isLoading : bool;
  chat_error : option exn;
  (* useSearch *)
  results : value;
  isSearching : bool;
  search_error : option exn;
  (* useModels *)
  models : value;
  currentModel : value;
  models_isLoading : bool;
  models_error : option exn;
  (* SettingsPage *)
  testResult : option TestResult;
  testing : bool
}.

Definition set_core (x : world) (a : ui) : ui :=
  mkUi x (messages a) (chat_isLoading a) (chat_error a)
        (results a) (isSearching a) (search_error a)
        (models a) (currentModel a) (models_isLoading a) (models_error a)
        (testResult a) (testing a).
Definition set_messages (x : list ChatMessage) (a : ui) : ui :=
  mkUi (core a) x (chat_isLoading a) (chat_error a)
        (results a) (isSearching a) (search_error a)
        (models a) (currentModel a) (models_isLoading a) (models_error a)
        (testResult a) (testing a).
Definition set_chat_isLoading (x : bool) (a : ui) : ui :=
  mkUi (core a) (messages a) x (chat_error a)
        (results a) (isSearching a) (search_error a)
        (models a) (currentModel a) (models_isLoading a) (models_error a)
        (testResult a) (testing a).
Definition set_chat_error (x : option exn) (a : ui) : ui :=
  mkUi (core a) (messages a) (chat_isLoading a) x
        (results a) (isSearching a) (search_error a)
        (models a) (currentModel a) (models_isLoading a) (models_error a)
        (testResult a) (testing a).
Definition set_results (x : value) (a : ui) : ui :=
  mkUi (core a) (messages a) (chat_isLoading a) (chat_error a)
        x (isSearching a) (search_error a)
        (models a) (currentModel a) (models_isLoading a) (models_error a)
        (testResult a) (testing a).
Definition set_isSearching (x : bool) (a : ui) : ui :=
  mkUi (core a) (messages a) (chat_isLoading a) (chat_error a)
        (results a) x (search_error a)
        (models a) (currentModel a) (models_isLoading a) (models_error a)
        (testResult a) (testing a).
Definition set_search_error (x : option exn) (a : ui) : ui :=
  mkUi (core a) (messages a) (chat_isLoading a) (chat_error a)
        (results a) (isSearching a) x
        (models a) (currentModel a) (models_isLoading a) (models_error a)
        (testResult a) (testing a).
Definition set_models (x : value) (a : ui) : ui :=
  mkUi (core a) (messages a) (chat_isLoading a) (chat_error a)
        (results a) (isSearching a) (search_error a)
        x (currentModel a) (models_isLoading a) (models_error a)
        (testResult a) (testing a).
Definition set_currentModel (x : value) (a : ui) : ui :=
  mkUi (core a) (messages a) (chat_isLoading a) (chat_error a)
        (results a) (isSearching a) (search_error a)
        (models a) x (models_isLoading a) (models_error a)
        (testResult a) (testing a).
Definition set_models_isLoading (x : bool) (a : ui) : ui :=
  mkUi (core a) (messages a) (chat_isLoading a) (chat_error a)
        (results a) (isSearching a) (search_error a)
        (models a) (currentModel a) x (models_error a)
        (testResult a) (testing a).
Definition set_models_error (x : option exn) (a : ui) : ui :=
  mkUi (core a) (messages a) (chat_isLoading a) (chat_error a)
        (results a) (isSearching a) (search_error a)
        (models a) (currentModel a) (models_isLoading a) x
        (testResult a) (testing a).
Definition set_testResult (x : option TestResult) (a : ui) : ui :=
  mkUi (core a) (messages a) (chat_isLoading a) (chat_error a)
        (results a) (isSearching a) (search_error a)
        (models a) (currentModel a) (models_isLoading a) (models_error a)
        x (testing a).
Definition set_testing (x : bool) (a : ui) : ui :=
  mkUi (core a) (messages a) (chat_isLoading a) (chat_error a)
        (results a) (isSearching a) (search_error a)
        (models a) (currentModel a) (models_isLoading a) (models_error a)
        (testResult a) x.

(** The controllers at their initial [useState] values, over the given
    state of the services. *)
Definition initial_ui (w : world) : ui :=
  mkUi w [] false None (VArr []) false None (VArr []) VNull false None None false.

(** Computations of the controllers. *)
Definition Act (A : Type) : Type := env -> ui -> outcome A * ui.

Definition hret {A} (x : A) : Act A := fun _ a => (Resolved x, a).

Definition hthrow {A} (e : exn) : Act A := fun _ a => (Rejected e, a).

Definition hbind {A B} (m : Act A) (k : A -> Act B) : Act B :=
  fun E a =>
    match m E a with
    | (Resolved x, a') => k x E a'
    | (Rejected e, a') => (Rejected e, a')
    end.

Definition htry {A} (m : Act A) (h : exn -> Act A) : Act A :=
  fun E a =>
    match m E a with
    | (Resolved x, a') => (Resolved x, a')
    | (Rejected e, a') => h e E a'
    end.

Definition hfinally {A} (m : Act A) (f : ui -> ui) : Act A :=
  fun E a => let (o, a') := m E a in (o, f a').

Definition hmodify (f : ui -> ui) : Act unit := fun _ a => (Resolved tt, f a).

(** A call into the services, on their part of the state. *)
Definition run {A} (m : M A) : Act A :=
  fun E a => let (o, w') := m E (core a) in (o, set_core w' a).

Module Controllers.

Declare Scope hook_scope.
Notation "x <- m ;; k" := (hbind m (fun x => k))
  (at level 61, m at next level, right associativity) : hook_scope.
Notation "m ;;; k" := (hbind m (fun _ => k))
  (at level 61, right associativity) : hook_scope.
Local Open Scope hook_scope.

Definition push_message (m : ChatMessage) : Act unit :=
  hmodify (fun a => set_messages (messages a ++ [m])%list a).

(** [if (settings?.apiUrl) api.setBaseUrl(settings.apiUrl)] *)
Definition apply_apiUrl (settings : option Settings) : Act unit :=
  match settings with
  | Some s =>
      if negb (String.eqb (apiUrl s) EmptyString)
      then run (ApiService.setBaseUrl (apiUrl s))
      else hret tt
  | None => hret tt
  end.

(** The options the chat controller passes to the facade. *)
Definition chat_options (settings : option Settings) (conversationId : value) : ChatOptions :=
  mkChatOptions
    conversationId
    (js_nullish (match settings with Some s => useRAG s | None => VUndefined end)
                (VBool true))
    (match settings with Some s => settings_model s | None => VUndefined end)
    VUndefined.

Section WithPlatform.

Variable number_text : Q -> string.

(** [sendMessage] of [useChat]; it resolves with [None] where the source
    returns [undefined]. *)
Definition sendMessage (settings : option Settings) (content : string)
           (conversationId : value) : Act (option Message) :=
  if blank content then hret None
  else
    hmodify (set_chat_error None) ;;;
    hmodify (set_chat_isLoading true) ;;;
    now <- run Date_now ;;
    push_message (mkChatMessage "user" (VStr content) now VUndefined VUndefined false) ;;;
    hfinally
      (htry
         (apply_apiUrl settings ;;;
          response <- run (ApiService.sendMessage content
                             (chat_options settings conversationId)) ;;
          now <- run Date_now ;;
          push_message (mkChatMessage "assistant" (msg_content response) now
                                      (msg_sources response) (msg_usage response)
                                      false) ;;;
          hret (Some response))
         (fun err =>
            now <- run Date_now ;;
            push_message
              (mkChatMessage "assistant"
                 (VStr ("⚠️ Error: " ++ text_of number_text (exn_message err)
                        ++ ". Make sure the backend is running."))
                 now VUndefined VUndefined true) ;;;
            hmodify (set_chat_error (Some err)) ;;;
            hthrow err))
      (set_chat_isLoading false).

(** [testConnection] of the settings page. *)
Definition testConnection : Act unit :=
  hmodify (set_testing true) ;;;
  hmodify (set_testResult None) ;;;
  htry
    (result <- run ApiService.healthCheck ;;
     st <- run (lift (reply_prop result "status")) ;;
     hmodify (set_testResult
                (Some (mkTestResult true
                         ("Connected! Status: " ++ text_of number_text st)))))
    (fun err =>
       hmodify (set_testResult
                  (Some (mkTestResult false (text_of number_text (exn_message err)))))) ;;;
  hmodify (set_testing false).

End WithPlatform.

(** [clearMessages] of [useChat]. *)
Definition clearMessages : Act unit :=
  hmodify (set_messages []) ;;; hmodify (set_chat_error None).

(** [search] of [useSearch]. *)
Definition search (query : string) (options : SearchOptions) : Act (option Reply) :=
  if blank query then hmodify (set_results (VArr [])) ;;; hret None
  else
    hmodify (set_isSearching true) ;;;
    hmodify (set_search_error None) ;;;
    hfinally
      (htry
         (response <- run (ApiService.search query options) ;;
          found <- run (lift (reply_prop response "results")) ;;
          hmodify (set_results (js_or found (VArr []))) ;;;
          hret (Some response))
         (fun err =>
            hmodify (set_search_error (Some err)) ;;;
            hmodify (set_results (VArr [])) ;;;
            hthrow err))
      (set_isSearching false).

(** [clearResults] of [useSearch]. *)
Definition clearResults : Act unit := hmodify (set_results (VArr [])).

(** [fetchModels] of [useModels]. *)
Definition fetchModels : Act unit :=
  hmodify (set_models_isLoading true) ;;;
  hmodify (set_models_error None) ;;;
  hfinally
    (htry
       (response <- run ApiService.listModels ;;
        listed <- run (lift (reply_prop response "models")) ;;
        hmodify (set_models (js_or listed (VArr []))) ;;;
        current <- run (lift (reply_prop response "current_model")) ;;
        hmodify (set_currentModel current))
       (fun err => hmodify (set_models_error (Some err))))
    (set_models_isLoading false).

(** [switchModel] of [useModels]. *)
Definition switchModel (modelName : string) : Act unit :=
  hmodify (set_models_isLoading true) ;;;
  hmodify (set_models_error None) ;;;
  hfinally
    (htry
       (run (ApiService.switchModel modelName) ;;;
        hmodify (set_currentModel (VStr modelName)))
       (fun err => hmodify (set_models_error (Some err)) ;;; hthrow err))
    (set_models_isLoading false).

(** The breakpoints of [useWindowSize]. *)
Definition isMobile (width : Z) : bool := width <? 768.
Definition isTablet (width : Z) : bool := (width >=? 768) && (width <? 1024).
Definition isDesktop (width : Z) : bool := width >=? 1024.

End Controllers.


(** The state of the services when the chat controller calls the facade:
    the clock has been read once for the user's message, and the base URL
    of the settings, when there is one, has been applied. *)
Definition chat_facade_state (settings : option Settings) (a : ui) : world :=
  let w := set_ticks (S (ticks (core a))) (core a) in
  match settings with
  | Some s => if negb (String.eqb (apiUrl s) EmptyString) then set_baseUrl (apiUrl s) w else w
  | None => w
  end.

(** The second argument of [this.request('/rag/search', ...)]. *)
Definition search_request (query : string) (options : SearchOptions) : RequestOptions :=
  mkOptions (Some "POST")
            (BodyJson (VObj [("query", VStr query);
                             ("top_k", js_default (topK options) (VNum (inject_Z 5)));
                             ("threshold", threshold options);
                             ("filter_source", filterSource options)]))
            None false.
(* ================================================================== *)
(** * Properties *)

(** ** The model on concrete inputs *)

Example split_two_lines :
  split_newline ("data: a" ++ newline ++ "data: b") = ["data: a"; "data: b"].
Proof. reflexivity. Qed.

Example split_trailing_newline :
  split_newline ("data: a" ++ newline) = ["data: a"; EmptyString].
Proof. reflexivity. Qed.

Example slice_data_prefix : slice 6 "data: Hel" = "Hel".
Proof. reflexivity. Qed.

Example line_without_prefix_ignored :
  startsWith "data: " "event: ping" = false /\ startsWith "data: " "data: x" = true.
Proof. split; reflexivity. Qed.

Example dec_of_status : dec 404 = "404" /\ dec 0 = "0".
Proof. split; reflexivity. Qed.

Example request_404_with_message :
  fst (request "/models/" no_options
         (answering 404 (VObj [("message", VStr "Not found"); ("code", VStr "NOT_FOUND")]))
         (initial_world localhost))
  = Rejected (ExApiError (ApiError.make (VStr "Not found") 404 (VStr "NOT_FOUND"))).
Proof. reflexivity. Qed.

Example request_503_without_json :
  fst (request "/models/" no_options (answering_text 503) (initial_world localhost))
  = Rejected (ExApiError (ApiError.make (VStr "HTTP 503") 503 VUndefined)).
Proof. reflexivity. Qed.

Example request_200_without_json :
  fst (request "/models/" no_options (answering_text 200) (initial_world localhost))
  = Rejected (ExApiError
                (ApiError.make (VStr "Unexpected token '<'") 0 (VStr "NETWORK_ERROR"))).
Proof. reflexivity. Qed.

Example request_goes_to_base_url :
  map sent_url
      (sent (snd (request "/models/" no_options unreachable (initial_world localhost))))
  = ["http://localhost:8000/models/"].
Proof. reflexivity. Qed.

Example simulated_chat_with_rag :
  let m := fst (ApiService.sendMessage "hi" with_rag unreachable (initial_world localhost)) in
  match m with
  | Resolved m =>
      msg_content m = index_string DemoApiService.DEMO_RESPONSES 0
      /\ array_length (msg_sources m) = Some 1%nat
      /\ msg_id m = VStr "demo-1700000000000"
  | Rejected _ => False
  end.
Proof. cbn. repeat split; reflexivity. Qed.

Example monitor_reports_demo :
  hc_status (snd (Hooks.checkHealth unreachable (initial_world localhost))) = VStr "demo".
Proof. reflexivity. Qed.

(** ** Transport *)

Ltac run_async :=
  unfold request, checkBackendAvailable, Response_json, fetch, Date_now,
    bind, try_catch, try_finally, gets, modify, lift, throw, ret in *.

Lemma request_logs endpoint options E w :
  snd (request endpoint options E w) = logged w (request_of w endpoint options).
Proof.
  run_async. unfold logged, request_of. cbn.
  destruct (backend E _ _) as [e | r]; cbn; [reflexivity |].
  destruct (Response.ok r); cbn.
  - destruct (opt_stream options); cbn; [reflexivity |].
    destruct (Response.json r); reflexivity.
  - destruct (Response.json r) as [e | v]; cbn; [reflexivity |].
    destruct v; reflexivity.
Qed.

Lemma request_unreachable endpoint options E w e :
  answer_to E w endpoint options = inl e ->
  request endpoint options E w =
    (Rejected (ExApiError (network_error (ExJsError e))),
     logged w (request_of w endpoint options)).
Proof.
  unfold answer_to, request_of. intros H. run_async. cbn. rewrite H. reflexivity.
Qed.


Lemma request_2xx_undecodable endpoint options E w r e :
  answer_to E w endpoint options = inr r ->
  Response.ok r = true ->
  opt_stream options = false ->
  Response.json r = inl e ->
  request endpoint options E w =
    (Rejected (ExApiError (network_error (ExJsError e))),
     logged w (request_of w endpoint options)).
Proof.
  unfold answer_to, request_of. intros H Hok Hs Hj. run_async. cbn.
  rewrite H. cbn. rewrite Hok. cbn. rewrite Hs, Hj. reflexivity.
Qed.

Lemma request_2xx_stream endpoint options E w r :
  answer_to E w endpoint options = inr r ->
  Response.ok r = true ->
  opt_stream options = true ->
  request endpoint options E w =
    (Resolved (Raw r), logged w (request_of w endpoint options)).
Proof.
  unfold answer_to, request_of. intros H Hok Hs. run_async. cbn.
  rewrite H. cbn. rewrite Hok. cbn. rewrite Hs. reflexivity.
Qed.

(** A non-2xx response whose body reads as something other than [null]:
    the error carries the status of the response, the body's [message] when
    it is truthy and 'HTTP <status>' otherwise, and the body's [code]. *)
Lemma request_non2xx endpoint options E w r m c :
  answer_to E w endpoint options = inr r ->
  Response.ok r = false ->
  get_prop (error_body r) "message" = Resolved m ->
  get_prop (error_body r) "code" = Resolved c ->
  request endpoint options E w =
    (Rejected (ExApiError
                 (ApiError.make (js_or m (VStr ("HTTP " ++ dec (Response.status r))))
                                (Response.status r) c)),
     logged w (request_of w endpoint options)).
Proof.
  unfold answer_to, request_of, error_body. intros H Hok Hm Hc. run_async. cbn.
  rewrite H. cbn. rewrite Hok. cbn.
  destruct (Response.json r) as [e | v]; cbn in *.
  - inversion Hm; inversion Hc; subst. reflexivity.
  - rewrite Hm. cbn. rewrite Hc. reflexivity.
Qed.

(** C7.  The case [request] misses: a non-2xx response whose body is the
    JSON text [null].  Reading [error.message] throws a TypeError inside
    the [try], and the [catch] turns it into a network error: status 0 and
    code NETWORK_ERROR instead of the status of the response. *)
Theorem request_non2xx_null_body endpoint options E w r :
  answer_to E w endpoint options = inr r ->
  Response.ok r = false ->
  Response.json r = inr VNull ->
  request endpoint options E w =
    (Rejected (ExApiError
                 (ApiError.make
                    (VStr "Cannot read properties of null (reading 'message')")
                    0 (VStr "NETWORK_ERROR"))),
     logged w (request_of w endpoint options)).
Proof.
  unfold answer_to, request_of. intros H Hok Hj. run_async. cbn.
  rewrite H. cbn. rewrite Hok. cbn. rewrite Hj. reflexivity.
Qed.

(** C10.  Whatever [request] throws is an [ApiError] instance. *)
Theorem request_rejects_with_ApiError endpoint options E w e w' :
  request endpoint options E w = (Rejected e, w') ->
  instanceof_ApiError e = true.
Proof.
  run_async. cbn.
  destruct (backend E _ _) as [j | r]; cbn.
  - intros H; inversion H; reflexivity.
  - destruct (Response.ok r); cbn.
    + destruct (opt_stream options); cbn; [intros H; inversion H |].
      destruct (Response.json r); cbn; intros H; inversion H; reflexivity.
    + destruct (Response.json r) as [j | v]; cbn.
      * intros H; inversion H; reflexivity.
      * destruct v; cbn; intros H; inversion H; reflexivity.
Qed.

Lemma request_non2xx_null_body_witness :
  request "/models/" no_options (answering 500 VNull) (initial_world localhost) =
    (Rejected (ExApiError
                 (ApiError.make
                    (VStr "Cannot read properties of null (reading 'message')")
                    0 (VStr "NETWORK_ERROR"))),
     logged (initial_world localhost)
            (request_of (initial_world localhost) "/models/" no_options)).
Proof.
  apply (request_non2xx_null_body "/models/" no_options (answering 500 VNull)
           (initial_world localhost) (Response.make 500 (inr VNull) None));
    reflexivity.
Defined.

Lemma request_rejects_with_ApiError_witness :
  request "/models/" no_options unreachable (initial_world localhost) =
    (Rejected (ExApiError (network_error (ExJsError (TypeError "Failed to fetch")))),
     logged (initial_world localhost)
            (request_of (initial_world localhost) "/models/" no_options))
  /\ instanceof_ApiError
       (ExApiError (network_error (ExJsError (TypeError "Failed to fetch")))) = true.
Proof.
  split; [reflexivity |].
  apply (request_rejects_with_ApiError "/models/" no_options unreachable
           (initial_world localhost) _
           (logged (initial_world localhost)
                   (request_of (initial_world localhost) "/models/" no_options))).
  reflexivity.
Defined.

(* ================================================================== *)
(** ** Simulated responder *)

Ltac run_monad :=
  unfold bind, try_catch, try_finally, gets, modify, lift, throw, ret, Date_now in *.

Lemma demo_sendMessage_run message options E w :
  DemoApiService.sendMessage message options E w =
    (Resolved (demo_message (responseIndex w) (clock E (ticks w)) options),
     set_ticks (S (ticks w)) (set_responseIndex (responseIndex w + 1)%N w)).
Proof. reflexivity. Qed.

Lemma canned_index (i : N) :
  exists s, index_string DemoApiService.DEMO_RESPONSES (i mod 5)%N = VStr s
            /\ In s DemoApiService.DEMO_RESPONSES
            /\ String.eqb s EmptyString = false.
Proof.
  assert (H : (i mod 5 < 5)%N) by (apply N.mod_lt; discriminate).
  assert (C : (i mod 5 = 0 \/ i mod 5 = 1 \/ i mod 5 = 2 \/ i mod 5 = 3 \/ i mod 5 = 4)%N)
    by (generalize dependent (i mod 5)%N; intros; lia).
  destruct C as [C | [C | [C | [C | C]]]]; rewrite C;
    eexists; (split; [reflexivity | split; [| reflexivity]]);
    unfold DemoApiService.DEMO_RESPONSES; cbn; tauto.
Qed.


(* ================================================================== *)
(** ** Client facade *)

Lemma probe_run E w :
  checkBackendAvailable E w = (Resolved (negb (probe_fails E w)), logged w (probe_of w)).
Proof.
  unfold probe_fails, probe_of, logged. run_async. cbn.
  destruct (backend E _ _) as [e | r]; cbn; [reflexivity |].
  now rewrite negb_involutive.
Qed.

Lemma set_isDemoMode_idem w : isDemoMode w = true -> set_isDemoMode true w = w.
Proof. destruct w; cbn; intros ->; reflexivity. Qed.

(** [sendMessage], branch by branch. *)
Lemma sendMessage_run message options E w :
  ApiService.sendMessage message options E w =
    if isDemoMode w then
      DemoApiService.sendMessage message options E (set_isDemoMode true w)
    else if probe_fails E w then
      DemoApiService.sendMessage message options E
        (set_isDemoMode true (logged w (probe_of w)))
    else
      match chat_reply E w message options with
      | (Resolved r, w2) =>
          match real_message r with
          | Some m => (Resolved m, w2)
          | None => DemoApiService.sendMessage message options E (set_isDemoMode true w2)
          end
      | (Rejected _, w2) =>
          DemoApiService.sendMessage message options E (set_isDemoMode true w2)
      end.
Proof.
  unfold ApiService.sendMessage, chat_reply.
  unfold bind at 1. unfold gets at 1.
  destruct (isDemoMode w) eqn:Hd.
  - reflexivity.
  - unfold bind at 1. unfold bind at 1. rewrite probe_run.
    destruct (probe_fails E w); [reflexivity |].
    cbn [negb ret]. unfold try_catch, bind at 1.
    destruct (request _ _ E _) as [[r | e] w2]; [| reflexivity].
    unfold real_message, bind, lift, ret, modify.
    destruct (reply_prop r "id"); [| reflexivity].
    destruct (reply_prop r "conversation_id"); [| reflexivity].
    destruct (reply_prop r "content"); [| reflexivity].
    destruct (reply_prop r "model"); [| reflexivity].
    destruct (reply_prop r "sources"); [| reflexivity].
    destruct (reply_prop r "usage"); reflexivity.
Qed.

Lemma request_plain endpoint options E w r w' :
  opt_stream options = false ->
  request endpoint options E w = (Resolved r, w') ->
  exists v, r = Plain v.
Proof.
  intros Hs. run_async. cbn. rewrite Hs.
  destruct (backend E _ _) as [j | resp]; cbn; [intros H; inversion H |].
  destruct (Response.ok resp); cbn.
  - destruct (Response.json resp); cbn; intros H; inversion H; eauto.
  - destruct (Response.json resp) as [j | v]; cbn; [intros H; inversion H |].
    destruct v; cbn; intros H; inversion H.
Qed.

Lemma real_message_plain v :
  match real_message (Plain v) with
  | Some m =>
      is_resolved (get_prop v "id") = true
      /\ get_prop v "content" = Resolved (msg_content m)
      /\ get_prop v "sources" = Resolved
           match v with VObj fields => own_property "sources" fields | _ => VUndefined end
      /\ msg_sources m =
           js_or match v with VObj fields => own_property "sources" fields | _ => VUndefined end
                 (VArr [])
      /\ msg_isDemo m = VUndefined
  | None => is_resolved (get_prop v "id") = false
  end.
Proof. destruct v; cbn; auto. Qed.




(** C6, as amended.  The [sources] of the returned Message are the hits of
    the reply that served the call, whatever [useRag] is: a reply of the
    backend passes its [sources] through ([[]] when the field is falsy), so
    their number is the number of hits returned; the simulated responder
    attaches one synthetic source when [options.useRag] is truthy and none
    otherwise. *)
Theorem sendMessage_sources message options E w :
  exists m w',
    ApiService.sendMessage message options E w = (Resolved m, w')
    /\ if falls_back E w message options
       then msg_sources m =
              if truthy (useRag options) then VArr [DemoApiService.demo_source] else VArr []
       else exists v sources,
           fst (chat_reply E w message options) = Resolved (Plain v)
           /\ get_prop v "sources" = Resolved sources
           /\ msg_sources m = js_or sources (VArr [])
           /\ match hits sources with
              | Some hs => array_length (msg_sources m) = Some (length hs)
              | None => True
              end.
Proof.
  rewrite sendMessage_run. unfold falls_back.
  destruct (isDemoMode w) eqn:Hd; cbn [orb].
  { rewrite demo_sendMessage_run. do 2 eexists. split; reflexivity. }
  destruct (probe_fails E w); cbn [orb].
  { rewrite demo_sendMessage_run. do 2 eexists. split; reflexivity. }
  destruct (chat_reply E w message options) as [[r | e] w2] eqn:Hr; cbn [fst unusable].
  - unfold chat_reply in Hr.
    destruct (request_plain "/chat/" (ApiService.chat_request message options)
                            _ _ _ _ eq_refl Hr) as [v ->].
    pose proof (real_message_plain v) as Hm. cbn [reply_prop].
    destruct (real_message (Plain v)) as [m |].
    + destruct Hm as (Hid & _ & Hs & Hms & _). rewrite Hid. cbn [negb].
      do 2 eexists. split; [reflexivity |].
      exists v. eexists. split; [reflexivity |]. split; [exact Hs |].
      split; [exact Hms |]. rewrite Hms.
      destruct v; cbn; auto.
      destruct (own_property "sources" fields); cbn; auto.
    + rewrite Hm. cbn [negb]. rewrite demo_sendMessage_run.
      do 2 eexists. split; reflexivity.
  - rewrite demo_sendMessage_run. do 2 eexists. split; reflexivity.
Qed.

(** C6, as the specification words it, fails for [useRag: false]: the
    facade does not look at [useRag] when it copies the [sources] of a
    backend reply. *)
Lemma sources_returned_without_rag : ~ no_sources_without_rag.
Proof.
  intros H.
  pose proof (H (answering 200 reply_with_hit) (initial_world localhost) "capital?"
                without_rag) as H'.
  vm_compute in H'. specialize (H' _ _ eq_refl eq_refl). discriminate H'.
Qed.

Lemma getDocuments_run E w :
  ApiService.getDocuments E w =
    if isDemoMode w then
      let (o, w') := DemoApiService.getDocuments E w in
      (match o with Resolved v => Resolved (Plain v) | Rejected e => Rejected e end, w')
    else
      match request "/rag/documents" no_options E w with
      | (Resolved r, w2) => (Resolved r, w2)
      | (Rejected _, w2) =>
          let (o, w') := DemoApiService.getDocuments E (set_isDemoMode true w2) in
          (match o with Resolved v => Resolved (Plain v) | Rejected e => Rejected e end, w')
      end.
Proof.
  unfold ApiService.getDocuments. run_monad.
  destruct (isDemoMode w); [reflexivity |].
  destruct (request _ _ E w) as [[r | e] w2]; reflexivity.
Qed.

Lemma listModels_run E w :
  ApiService.listModels E w =
    if isDemoMode w then
      let (o, w') := DemoApiService.getModels E w in
      (match o with Resolved v => Resolved (Plain v) | Rejected e => Rejected e end, w')
    else
      match request "/models/" no_options E w with
      | (Resolved r, w2) => (Resolved r, w2)
      | (Rejected _, w2) =>
          let (o, w') := DemoApiService.getModels E (set_isDemoMode true w2) in
          (match o with Resolved v => Resolved (Plain v) | Rejected e => Rejected e end, w')
      end.
Proof.
  unfold ApiService.listModels. run_monad.
  destruct (isDemoMode w); [reflexivity |].
  destruct (request _ _ E w) as [[r | e] w2]; reflexivity.
Qed.

Lemma healthCheck_run E w :
  ApiService.healthCheck E w =
    if isDemoMode w then
      let (o, w') := DemoApiService.checkHealth E w in
      (match o with Resolved v => Resolved (Plain v) | Rejected e => Rejected e end, w')
    else
      match request "/health/" no_options E w with
      | (Resolved r, w2) => (Resolved r, w2)
      | (Rejected _, w2) =>
          let (o, w') := DemoApiService.checkHealth E (set_isDemoMode true w2) in
          (match o with Resolved v => Resolved (Plain v) | Rejected e => Rejected e end, w')
      end.
Proof.
  unfold ApiService.healthCheck. run_monad.
  destruct (isDemoMode w); [reflexivity |].
  destruct (request _ _ E w) as [[r | e] w2]; reflexivity.
Qed.

(** What a bare [request] leaves of the state. *)
Lemma request_frame endpoint options E w o w' :
  request endpoint options E w = (o, w') ->
  w' = logged w (request_of w endpoint options).
Proof.
  intros H. pose proof (request_logs endpoint options E w) as L.
  rewrite H in L. exact L.
Qed.

(** Case analysis on the [request] in the goal; the state it leaves is
    replaced by the logged one. *)
Ltac settle_request :=
  match goal with
  | |- context [request ?ep ?o ?E ?w] =>
      let Hr := fresh "Hr" in
      let w2 := fresh "w" in
      destruct (request ep o E w) as [[? | ?] w2] eqn:Hr;
      apply request_frame in Hr; subst w2
  end.

Lemma run_call_latched c E w :
  isDemoMode w = true ->
  latched_step E (mkStep c w (fst (run_call c E w)) (snd (run_call c E w))).
Proof.
  intros Hd. unfold latched_step. cbn [step_call before settled after].
  destruct c; cbn [run_call simulated].
  - (* sendMessage *)
    unfold as_message, bind. rewrite sendMessage_run, Hd.
    rewrite (set_isDemoMode_idem w Hd), demo_sendMessage_run. cbn.
    repeat split; auto.
  - (* uploadDocument *)
    unfold as_reply, bind, ApiService.uploadDocument.
    settle_request; cbn; auto.
  - (* search *)
    unfold as_reply, bind, ApiService.search.
    settle_request; cbn; auto.
  - (* getDocuments *)
    unfold as_reply, as_plain, bind. rewrite getDocuments_run, Hd. cbn.
    repeat split; auto.
  - (* listModels *)
    unfold as_reply, as_plain, bind. rewrite listModels_run, Hd. cbn.
    repeat split; auto.
  - (* switchModel *)
    unfold as_reply, bind, ApiService.switchModel. fold (switch_request modelName).
    settle_request; cbn; auto.
  - (* healthCheck *)
    unfold as_reply, as_plain, bind. rewrite healthCheck_run, Hd. cbn.
    repeat split; auto.
  - (* setBaseUrl *)
    cbn. auto.
Qed.

(** C2, as amended.  Once the flag is set it stays set under every facade
    call, and every later [sendMessage], [getDocuments], [listModels] and
    [healthCheck] is the corresponding operation of the simulated
    responder: it resolves and sends nothing, whatever the backend would
    answer by then.  [switchModel] has no simulated counterpart and still
    sends its request. *)
Theorem demo_mode_latched E cs w :
  isDemoMode w = true ->
  Forall (latched_step E) (session cs E w).
Proof.
  revert w. induction cs as [| c cs IH]; intros w Hd; cbn [session].
  - constructor.
  - pose proof (run_call_latched c E w Hd) as Hs.
    destruct (run_call c E w) as [o w'] eqn:Hrun. cbn [fst snd] in Hs.
    constructor; [exact Hs |].
    apply IH. destruct Hs as [Hs _]. exact Hs.
Qed.

(** C2, as the specification words it, fails: after a chat call has failed
    and set the flag, [switchModel] still sends a request. *)
Lemma switchModel_bypasses_latch : ~ latch_covers_every_call.
Proof.
  intros H.
  specialize (H unreachable after_failed_chat (SwitchModel "gemma2:9b") eq_refl).
  vm_compute in H. discriminate H.
Qed.

Lemma demo_mode_latched_witness :
  Forall (latched_step recovered)
         (session [ListModels; SendMessage "hi" no_chat_options;
                   SwitchModel "gemma2:9b"; HealthCheck]
                  recovered after_failed_chat).
Proof. apply demo_mode_latched. reflexivity. Defined.

(* ================================================================== *)
(** ** Availability monitor *)

(** [checkHealth] of the hook, in terms of [healthCheck] of the facade. *)
Lemma checkHealth_run E w :
  Hooks.checkHealth E w =
    let (o, w1) := ApiService.healthCheck E w in
    let stamp w2 :=
      set_hc_lastCheck (Some (clock E (ticks w2))) (set_ticks (S (ticks w2)) w2) in
    let unhealthy err :=
      set_hc_error (exn_message err) (set_hc_status (VStr "unhealthy") w1) in
    match o with
    | Resolved r =>
        match reply_prop r "status" with
        | Resolved st =>
            (Resolved tt, stamp (set_hc_error VNull (set_hc_status st w1)))
        | Rejected err => (Resolved tt, stamp (unhealthy err))
        end
    | Rejected err => (Resolved tt, stamp (unhealthy err))
    end.
Proof.
  unfold Hooks.checkHealth. run_monad.
  destruct (ApiService.healthCheck E w) as [[r | e] w1]; [| reflexivity].
  destruct (reply_prop r "status"); reflexivity.
Qed.



(* ================================================================== *)
(** ** Models *)

Lemma request_resolves_iff endpoint options E w :
  opt_stream options = false ->
  is_resolved (fst (request endpoint options E w))
  = accepts (answer_to E w endpoint options).
Proof.
  intros Hs. unfold answer_to, request_of, accepts. run_async. cbn. rewrite Hs.
  destruct (backend E _ _) as [j | r]; cbn; [reflexivity |].
  destruct (Response.ok r); cbn.
  - destruct (Response.json r); reflexivity.
  - destruct (Response.json r) as [j | v]; cbn; [reflexivity |].
    destruct v; reflexivity.
Qed.




(* ================================================================== *)
(** ** Streaming *)

Lemma append_empty_r (s : string) : s ++ EmptyString = s.
Proof. induction s as [| c s IH]; cbn; [reflexivity | now rewrite IH]. Qed.

Lemma append_assoc (a b c : string) : (a ++ b) ++ c = a ++ (b ++ c).
Proof. induction a as [| x a IH]; cbn; [reflexivity | now rewrite IH]. Qed.

(** The loop over the lines of one chunk, with recording callbacks:
    [fullContent] grows by exactly the tokens handed to [onToken]. *)
Lemma stream_lines_recorded lines :
  forall fullContent E w,
  exists tokens w',
    ApiService.stream_lines recorder lines fullContent E w =
      (Resolved (if existsb is_done_line lines
                 then inl (fullContent ++ join tokens)
                 else inr (fullContent ++ join tokens)), w')
    /\ calls w' =
         (calls w ++ map OnToken tokens
            ++ (if existsb is_done_line lines
                then [OnComplete (fullContent ++ join tokens)] else []))%list.
Proof.
  induction lines as [| line rest IH]; intros full E w.
  - exists [], w. cbn. rewrite append_empty_r, app_nil_r. auto.
  - cbn [ApiService.stream_lines existsb]. unfold is_done_line at 1 3.
    destruct (startsWith "data: " line); cbn [andb orb]; [| apply IH].
    destruct (String.eqb (slice 6 line) "[DONE]"); cbn [orb].
    + exists []. eexists. cbn [join fold_right map app]. rewrite append_empty_r.
      unfold bind, ret. cbn [call_opt recorder onComplete].
      unfold record_call, modify. split; reflexivity.
    + unfold bind at 1. cbn [call_opt recorder onToken].
      unfold record_call at 1, modify at 1.
      destruct (IH (full ++ slice 6 line) E
                   (set_calls (calls w ++ [OnToken (slice 6 line)])%list w))
        as (tokens & w' & Hrun & Hcalls).
      exists (slice 6 line :: tokens), w'. rewrite Hrun. cbn [join fold_right].
      fold (join tokens). rewrite <- append_assoc. split; [reflexivity |].
      rewrite Hcalls. cbn [calls set_calls map]. now rewrite <- app_assoc.
Qed.

(** The loop over the chunks of the body. *)
Lemma stream_read_recorded pending fin :
  forall fullContent E w,
  exists tokens w',
    calls w' =
      (calls w ++ map OnToken tokens
         ++ (if stream_completes (mkStream pending fin)
             then [OnComplete (fullContent ++ join tokens)] else []))%list
    /\ ApiService.stream_read recorder pending fin fullContent E w =
         (match fin with
          | ReadError e =>
              if existsb has_done pending then Resolved tt else Rejected (ExJsError e)
          | EndOfStream => Resolved tt
          end, w').
Proof.
  unfold stream_completes. cbn [chunks ending].
  induction pending as [| chunk rest IH]; intros full E w.
  - exists []. cbn [ApiService.stream_read existsb orb].
    destruct fin as [| e].
    + eexists. split; [| reflexivity]. cbn. now rewrite append_empty_r.
    + exists w. split; [| reflexivity]. cbn. now rewrite app_nil_r.
  - cbn [ApiService.stream_read existsb]. unfold bind at 1. unfold has_done at 1 3.
    destruct (stream_lines_recorded (split_newline chunk) full E w)
      as (tokens & w1 & Hrun & Hcalls).
    rewrite Hrun.
    destruct (existsb is_done_line (split_newline chunk)); cbn [orb].
    + exists tokens, w1. split; [exact Hcalls |]. destruct fin; reflexivity.
    + destruct (IH (full ++ join tokens) E w1) as (tokens' & w' & Hcalls' & Hrun').
      exists (tokens ++ tokens')%list, w'. split; [| exact Hrun'].
      rewrite Hcalls', Hcalls, app_nil_r, map_app.
      assert (J : join (tokens ++ tokens') = join tokens ++ join tokens').
      { clear. induction tokens as [| t ts IHt]; cbn; [reflexivity |].
        fold (join (ts ++ tokens')) (join ts). now rewrite IHt, append_assoc. }
      rewrite J, <- append_assoc, <- !app_assoc. reflexivity.
Qed.

Lemma request_stream endpoint options E w :
  opt_stream options = true ->
  match answer_to E w endpoint options with
  | inr r =>
      if Response.ok r
      then request endpoint options E w =
             (Resolved (Raw r), logged w (request_of w endpoint options))
      else exists e, request endpoint options E w =
                       (Rejected e, logged w (request_of w endpoint options))
  | inl _ =>
      exists e, request endpoint options E w =
                  (Rejected e, logged w (request_of w endpoint options))
  end.
Proof.
  intros Hs. destruct (answer_to E w endpoint options) as [j | r] eqn:Ha.
  - eexists. eapply request_unreachable. exact Ha.
  - destruct (Response.ok r) eqn:Hok.
    + apply request_2xx_stream; assumption.
    + pose proof (request_logs endpoint options E w) as L.
      pose proof (request_resolves_iff endpoint options E w) as R.
      destruct (request endpoint options E w) as [[x | e] w1] eqn:Hr.
      * exfalso. revert Hr. unfold answer_to, request_of in Ha. run_async. cbn.
        rewrite Ha. cbn. rewrite Hok. cbn.
        destruct (Response.json r) as [j | v]; cbn; [discriminate |].
        destruct v; discriminate.
      * cbn in L. subst w1. eauto.
Qed.

(** C3.  With callbacks that record what they receive, a streaming call
    delivers some tokens to [onToken] and then makes exactly one more call:
    [onComplete], with the tokens concatenated in delivery order, when the
    stream terminates successfully (the call then resolves); [onError]
    otherwise (the call then rejects).  In particular the tokens 'Hel',
    'lo' and the terminator give [onComplete('Hello')], once. *)
Theorem streaming_tokens_concatenate message options E w :
  (exists o w' tokens last,
      ApiService.streamMessage message options recorder E w = (o, w')
      /\ calls w' = (calls w ++ map OnToken tokens ++ [last])%list
      /\ match delivered E w message options with
         | Some s =>
             if stream_completes s
             then o = Resolved tt /\ last = OnComplete (join tokens)
             else exists e, o = Rejected e /\ last = OnError e
         | None => tokens = [] /\ exists e, o = Rejected e /\ last = OnError e
         end)
  /\ calls (snd (ApiService.streamMessage "Hello?" no_chat_options recorder
                   hello_stream (initial_world localhost)))
     = [OnToken "Hel"; OnToken "lo"; OnComplete "Hello"].
Proof.
  split; [| reflexivity].
  unfold ApiService.streamMessage, delivered. fold (stream_request message options).
  pose proof (request_stream "/chat/stream" (stream_request message options) E w eq_refl)
    as Hreq.
  unfold try_catch, bind at 1.
  destruct (answer_to E w "/chat/stream" (stream_request message options)) as [j | r].
  { destruct Hreq as [e ->]. exists (Rejected e). eexists. exists [], (OnError e).
    split; [reflexivity |]. split; [reflexivity |]. eauto. }
  destruct (Response.ok r).
  2:{ destruct Hreq as [e ->]. exists (Rejected e). eexists. exists [], (OnError e).
      split; [reflexivity |]. split; [reflexivity |]. eauto. }
  rewrite Hreq. destruct (Response.body r) as [[pending fin] |].
  2:{ eexists. eexists. exists []. eexists.
      split; [reflexivity |]. split; [reflexivity |]. eauto. }
  cbn [chunks ending].
  destruct (stream_read_recorded pending fin EmptyString E
              (logged w (request_of w "/chat/stream" (stream_request message options))))
    as (tokens & w2 & Hcalls & Hrun).
  rewrite Hrun. cbn [calls logged set_sent] in Hcalls.
  unfold stream_completes in *. cbn [chunks ending] in *.
  destruct fin as [| e].
  - rewrite orb_true_r in *. exists (Resolved tt), w2, tokens. eexists.
    split; [reflexivity |]. split; [exact Hcalls |]. auto.
  - rewrite orb_false_r in *. destruct (existsb has_done pending).
    + exists (Resolved tt), w2, tokens. eexists.
      split; [reflexivity |]. split; [exact Hcalls |]. auto.
    + exists (Rejected (ExJsError e)). eexists. exists tokens. eexists.
      split; [reflexivity |]. cbn. rewrite Hcalls, app_nil_r, <- app_assoc.
      split; [reflexivity |]. eauto.
Qed.

(* ================================================================== *)
(** ** The cycle of canned replies *)


Lemma canned_at_counter (i : N) :
  exists text,
    nth_error DemoApiService.DEMO_RESPONSES (N.to_nat (i mod 5)) = Some text
    /\ index_string DemoApiService.DEMO_RESPONSES (i mod 5)%N = VStr text.
Proof.
  destruct (canned_index i) as (s & Hs & _). exists s. split; [| exact Hs].
  unfold index_string in Hs.
  destruct (nth_error DemoApiService.DEMO_RESPONSES (N.to_nat (i mod 5)));
    [inversion Hs; reflexivity | discriminate].
Qed.

Lemma counter_of_nat (n : nat) : N.to_nat ((0 + N.of_nat n) mod 5) = (n mod 5)%nat.
Proof.
  rewrite N.add_0_l. change 5%N with (N.of_nat 5).
  now rewrite <- Nat2N.inj_mod, Nat2N.id.
Qed.

(** Simulated chat calls in a row: each resolves, and the [n]-th carries
    the canned string at (counter + n) modulo 5. *)
Lemma demo_chats_run args :
  forall E w,
  exists replies w',
    demo_chats args E w = (Resolved replies, w')
    /\ length replies = length args
    /\ responseIndex w' = (responseIndex w + N.of_nat (length args))%N
    /\ forall n m,
        nth_error replies n = Some m ->
        exists text,
          nth_error DemoApiService.DEMO_RESPONSES
                    (N.to_nat ((responseIndex w + N.of_nat n) mod 5)) = Some text
          /\ msg_content m = VStr text.
Proof.
  induction args as [| [message options] rest IH]; intros E w.
  - exists [], w. cbn. repeat split; try lia. intros [| n] m H; discriminate H.
  - cbn [demo_chats]. unfold bind at 1. rewrite demo_sendMessage_run.
    destruct (IH E (set_ticks (S (ticks w)) (set_responseIndex (responseIndex w + 1)%N w)))
      as (replies & w' & Hrun & Hlen & Hidx & Hnth).
    unfold bind at 1. rewrite Hrun. unfold ret.
    do 2 eexists. split; [reflexivity |]. cbn [length]. split; [now rewrite Hlen |].
    cbn [responseIndex set_ticks set_responseIndex] in Hidx, Hnth.
    split; [rewrite Hidx; lia |].
    intros [| n] m H; cbn [nth_error] in H.
    + inversion H; subst m. cbn [msg_content demo_message].
      destruct (canned_at_counter (responseIndex w)) as (text & Ht & Hs).
      exists text. split; [| exact Hs].
      replace (responseIndex w + N.of_nat 0)%N with (responseIndex w) by lia. exact Ht.
    + destruct (Hnth n m H) as (text & Ht & Hc). exists text. split; [| exact Hc].
      replace (responseIndex w + N.of_nat (S n))%N
        with (responseIndex w + 1 + N.of_nat n)%N by lia.
      exact Ht.
Qed.

Lemma run_call_chat_step c E w :
  chat_step E (mkStep c w (fst (run_call c E w)) (snd (run_call c E w))).
Proof.
  unfold chat_step. cbn [step_call settled before after].
  destruct c; cbn [run_call].
  - (* sendMessage *)
    unfold as_message, bind. rewrite sendMessage_run. unfold falls_back.
    destruct (canned_at_counter (responseIndex w)) as (text & Ht & Hs).
    destruct (isDemoMode w); cbn [orb];
      [rewrite demo_sendMessage_run; cbn; eauto 10 |].
    destruct (probe_fails E w); cbn [orb];
      [rewrite demo_sendMessage_run; cbn; eauto 10 |].
    destruct (chat_reply E w message options) as [[r | e] w2] eqn:Hr;
      unfold chat_reply in Hr; pose proof (request_frame _ _ _ _ _ _ Hr) as ->;
      cbn [fst unusable].
    + destruct (request_plain "/chat/" (ApiService.chat_request message options)
                              _ _ _ _ eq_refl Hr) as [v ->].
      pose proof (real_message_plain v) as Hm. cbn [reply_prop].
      destruct (real_message (Plain v)) as [m |].
      * destruct Hm as (Hid & _). rewrite Hid. reflexivity.
      * rewrite Hm. cbn [negb]. rewrite demo_sendMessage_run. cbn. eauto 10.
    + rewrite demo_sendMessage_run. cbn. eauto 10.
  - unfold as_reply, bind, ApiService.uploadDocument. settle_request; reflexivity.
  - unfold as_reply, bind, ApiService.search. settle_request; reflexivity.
  - unfold as_reply, bind. rewrite getDocuments_run.
    destruct (isDemoMode w); [reflexivity |]. settle_request; reflexivity.
  - unfold as_reply, bind. rewrite listModels_run.
    destruct (isDemoMode w); [reflexivity |]. settle_request; reflexivity.
  - unfold as_reply, bind, ApiService.switchModel. settle_request; reflexivity.
  - unfold as_reply, bind. rewrite healthCheck_run.
    destruct (isDemoMode w); [reflexivity |]. settle_request; reflexivity.
  - reflexivity.
Qed.

Lemma session_chat_steps cs : forall E w, Forall (chat_step E) (session cs E w).
Proof.
  induction cs as [| c cs IH]; intros E w; cbn [session]; [constructor |].
  pose proof (run_call_chat_step c E w) as Hs.
  destruct (run_call c E w) as [o w']. constructor; [exact Hs | apply IH].
Qed.

Lemma falls_back_when_down E w message options :
  backend_down E -> falls_back E w message options = true.
Proof.
  intros Hdown. unfold falls_back, probe_fails.
  destruct (Hdown (length (sent w)) (probe_of w)) as [e ->].
  now rewrite orb_true_r.
Qed.

(** With nobody answering, the [n]-th [sendMessage] of a session carries
    the canned string at (counter + n) modulo 5, and each leaves the flag
    set. *)
Lemma session_chats_when_down E cs :
  backend_down E ->
  forall w,
    Forall chat_sets_flag (session cs E w)
    /\ forall n o,
        nth_error (chat_replies (session cs E w)) n = Some o ->
        exists m text,
          o = Resolved (AMessage m)
          /\ nth_error DemoApiService.DEMO_RESPONSES
                       (N.to_nat ((responseIndex w + N.of_nat n) mod 5)) = Some text
          /\ msg_content m = VStr text.
Proof.
  intros Hdown. induction cs as [| c cs IH]; intros w; cbn [session].
  - split; [constructor |]. intros [| n] o H; discriminate H.
  - pose proof (run_call_chat_step c E w) as Hs.
    destruct (run_call c E w) as [o1 w1]. cbn [fst snd] in Hs.
    unfold chat_step in Hs. cbn [step_call settled before after] in Hs.
    destruct (IH w1) as [IHflag IHnth].
    destruct c; cbn [chat_replies step_call settled];
      try (split; [constructor; [exact I | exact IHflag] |];
           intros n o H; destruct (IHnth n o H) as (m & text & Ho & Ht & Hc);
           exists m, text; rewrite <- Hs; auto).
    rewrite (falls_back_when_down E w message options Hdown) in Hs.
    destruct Hs as (m & text & Ho & Hc & Ht & Hi & Hf).
    split; [constructor; [exact Hf | exact IHflag] |].
    intros [| n] o H; cbn [nth_error] in H.
    + inversion H; subst o. exists m, text. split; [exact Ho |]. split; [| exact Hc].
      replace (responseIndex w + N.of_nat 0)%N with (responseIndex w) by lia. exact Ht.
    + destruct (IHnth n o H) as (m' & text' & Ho' & Ht' & Hc').
      exists m', text'. split; [exact Ho' |]. split; [| exact Hc'].
      replace (responseIndex w + N.of_nat (S n))%N
        with (responseIndex w1 + N.of_nat n)%N by lia.
      exact Ht'.
Qed.

(** C8.  Starting with a fresh simulated responder: calls of its chat
    operation made one after another all resolve, the [n]-th (counting from
    0) with the canned string number [n mod 5], and the counter has moved
    by one per call.  In any session of facade calls, a [sendMessage] that
    falls back carries the canned string at the counter modulo 5, moves the
    counter by exactly one and leaves the flag set, and no other call moves
    the counter.  With nobody answering at the backend, the [n]-th
    [sendMessage] of a session resolves with the canned string number
    [n mod 5] and leaves the flag set. *)
Theorem simulated_chat_cycles E w :
  responseIndex w = 0%N ->
  (forall args,
      exists replies w',
        demo_chats args E w = (Resolved replies, w')
        /\ length replies = length args
        /\ responseIndex w' = N.of_nat (length args)
        /\ forall n m,
            nth_error replies n = Some m ->
            exists text,
              nth_error DemoApiService.DEMO_RESPONSES (n mod 5) = Some text
              /\ msg_content m = VStr text)
  /\ (forall cs, Forall (chat_step E) (session cs E w))
  /\ (backend_down E ->
      forall cs,
        Forall chat_sets_flag (session cs E w)
        /\ forall n o,
            nth_error (chat_replies (session cs E w)) n = Some o ->
            exists m text,
              o = Resolved (AMessage m)
              /\ nth_error DemoApiService.DEMO_RESPONSES (n mod 5) = Some text
              /\ msg_content m = VStr text).
Proof.
  intros H0. split; [| split].
  - intros args.
    destruct (demo_chats_run args E w) as (replies & w' & Hrun & Hlen & Hidx & Hnth).
    exists replies, w'. split; [exact Hrun |]. split; [exact Hlen |].
    split; [rewrite Hidx, H0; apply N.add_0_l |].
    intros n m H. destruct (Hnth n m H) as (text & Ht & Hc).
    rewrite H0, counter_of_nat in Ht. eauto.
  - intros cs. apply session_chat_steps.
  - intros Hdown cs. destruct (session_chats_when_down E cs Hdown w) as [Hflag Hnth].
    split; [exact Hflag |].
    intros n o H. destruct (Hnth n o H) as (m & text & Ho & Ht & Hc).
    rewrite H0, counter_of_nat in Ht. eauto.
Qed.

Lemma simulated_chat_cycles_witness :
  (exists replies w',
      demo_chats (repeat ("hi", without_rag) 7) unreachable (initial_world localhost)
      = (Resolved replies, w')
      /\ length replies = 7%nat
      /\ responseIndex w' = 7%N
      /\ forall n m,
          nth_error replies n = Some m ->
          exists text,
            nth_error DemoApiService.DEMO_RESPONSES (n mod 5) = Some text
            /\ msg_content m = VStr text)
  /\ Forall chat_sets_flag
            (session [SendMessage "a" without_rag; ListModels; SendMessage "b" with_rag]
                     unreachable (initial_world localhost))
  /\ forall n o,
      nth_error (chat_replies
                   (session [SendMessage "a" without_rag; ListModels;
                             SendMessage "b" with_rag]
                            unreachable (initial_world localhost))) n = Some o ->
      exists m text,
        o = Resolved (AMessage m)
        /\ nth_error DemoApiService.DEMO_RESPONSES (n mod 5) = Some text
        /\ msg_content m = VStr text.
Proof.
  destruct (simulated_chat_cycles unreachable (initial_world localhost) eq_refl)
    as (Hdirect & _ & Hdown).
  split; [exact (Hdirect (repeat ("hi", without_rag) 7)) |].
  apply Hdown. intros k rq. eexists. reflexivity.
Defined.

(* ================================================================== *)
(** ** Batch upload *)

Lemma request_json_cases endpoint options E w :
  opt_stream options = false ->
  match answer_to E w endpoint options with
  | inl _ => is_resolved (fst (request endpoint options E w)) = false
  | inr r =>
      if Response.ok r then
        match Response.json r with
        | inr v => fst (request endpoint options E w) = Resolved (Plain v)
        | inl _ => is_resolved (fst (request endpoint options E w)) = false
        end
      else is_resolved (fst (request endpoint options E w)) = false
  end.
Proof.
  intros Hs. unfold answer_to, request_of. run_async. cbn. rewrite Hs.
  destruct (backend E _ _) as [j | r]; cbn; [reflexivity |].
  destruct (Response.ok r); cbn.
  - destruct (Response.json r); reflexivity.
  - destruct (Response.json r) as [j | v]; cbn; [reflexivity |].
    destruct v; reflexivity.
Qed.

(** One upload through the hook: it sends one request, and appends one
    record with status 'indexed' exactly when it resolves. *)
Lemma hook_upload_run file E w :
  exists o w' added,
    Hooks.uploadDocument file E w = (o, w')
    /\ baseUrl w' = baseUrl w
    /\ length (sent w') = S (length (sent w))
    /\ is_resolved o = upload_succeeds E (baseUrl w) (length (sent w)) file
    /\ documents w' = (documents w ++ added)%list
    /\ length added = (if is_resolved o then 1 else 0)%nat
    /\ Forall indexed added.
Proof.
  unfold Hooks.uploadDocument, ApiService.uploadDocument. cbn [app].
  fold (upload_options file). run_monad.
  set (w0 := set_docs_error None (set_uploadProgress 0 (set_isUploading true w))).
  pose proof (request_json_cases "/rag/ingest/upload" (upload_options file) E w0 eq_refl)
    as Hc.
  unfold upload_succeeds.
  change (backend E (length (sent w))
            (mkSent (baseUrl w ++ "/rag/ingest/upload")
                    (request_config (upload_options file))))
    with (answer_to E w0 "/rag/ingest/upload" (upload_options file)).
  destruct (request "/rag/ingest/upload" (upload_options file) E w0) as [o w1] eqn:Hr.
  apply request_frame in Hr. subst w1. cbn [fst] in Hc.
  destruct (answer_to E w0 "/rag/ingest/upload" (upload_options file)) as [j | r].
  { destruct o; [discriminate Hc |]. do 2 eexists. exists [].
    split; [reflexivity |]. cbn. rewrite app_nil_r, length_app. cbn.
    repeat split; auto; lia. }
  destruct (Response.ok r); cbn [andb].
  2:{ destruct o; [discriminate Hc |]. do 2 eexists. exists [].
      split; [reflexivity |]. cbn. rewrite app_nil_r, length_app. cbn.
      repeat split; auto; lia. }
  destruct (Response.json r) as [j | v].
  { destruct o; [discriminate Hc |]. do 2 eexists. exists [].
    split; [reflexivity |]. cbn. rewrite app_nil_r, length_app. cbn.
    repeat split; auto; lia. }
  subst o. cbn [reply_prop].
  destruct (get_prop v "chunks_created") as [c | e].
  - do 2 eexists. eexists [_].
    split; [reflexivity |]. cbn. rewrite length_app. cbn.
    repeat split; auto; try lia. constructor; [reflexivity | constructor].
  - do 2 eexists. exists [].
    split; [reflexivity |]. cbn. rewrite app_nil_r, length_app. cbn.
    repeat split; auto; lia.
Qed.

(** The loop of [uploadMultiple]: one entry per file, in order, and one new
    record per upload that succeeded. *)
Lemma uploadMultiple_from_run files :
  forall E w results,
  exists new added w',
    Hooks.uploadMultiple_from files results E w = (Resolved (results ++ new)%list, w')
    /\ map Hooks.ur_success new = upload_flags E (baseUrl w) (length (sent w)) files
    /\ map Hooks.ur_file new = map file_name files
    /\ documents w' = (documents w ++ added)%list
    /\ length added = length (filter (fun b : bool => b)
                                (upload_flags E (baseUrl w) (length (sent w)) files))
    /\ Forall indexed added.
Proof.
  induction files as [| file rest IH]; intros E w results.
  - exists [], [], w. cbn. rewrite !app_nil_r. repeat split; auto.
  - cbn [Hooks.uploadMultiple_from upload_flags].
    unfold bind at 1. unfold try_catch, bind at 1.
    destruct (hook_upload_run file E w)
      as (o & w1 & added1 & Hrun & Hb & Hs & Hok & Hd & Hl & Hi).
    rewrite Hrun, <- Hok.
    destruct o as [r | e]; cbn [ret is_resolved] in *.
    + destruct (IH E w1 (results ++ [Hooks.mkUploadResult (file_name file) true (Some r) None])%list)
        as (new & added & w' & Hrun' & Hf & Hn & Hd' & Hl' & Hi').
      eexists (_ :: new), (added1 ++ added)%list, w'.
      rewrite Hrun', <- app_assoc. cbn [app map filter Hooks.ur_success Hooks.ur_file].
      rewrite Hf, Hn, Hb, Hs, Hd', Hd, <- app_assoc, length_app, Hl, Hl'.
      rewrite Hb, Hs. repeat split; auto. apply Forall_app; auto.
    + destruct (IH E w1 (results ++ [Hooks.mkUploadResult (file_name file) false None (Some e)])%list)
        as (new & added & w' & Hrun' & Hf & Hn & Hd' & Hl' & Hi').
      eexists (_ :: new), (added1 ++ added)%list, w'.
      rewrite Hrun', <- app_assoc. cbn [app map filter Hooks.ur_success Hooks.ur_file].
      rewrite Hf, Hn, Hb, Hs, Hd', Hd, <- app_assoc, length_app, Hl, Hl'.
      rewrite Hb, Hs. repeat split; auto. apply Forall_app; auto.
Qed.

Lemma upload_flags_pointwise files :
  forall E base n (f : nat -> bool),
    (forall i file, nth_error files i = Some file ->
                    upload_succeeds E base (n + i) file = f i) ->
    upload_flags E base n files = map f (seq 0 (length files)).
Proof.
  induction files as [| file rest IH]; intros E base n f H; [reflexivity |].
  cbn [upload_flags length seq map]. f_equal.
  - rewrite <- (H 0%nat file eq_refl). f_equal. lia.
  - rewrite <- seq_shift, map_map. apply IH.
    intros i x Hx. rewrite <- (H (S i) x Hx). f_equal. lia.
Qed.

(** Among the indices [a, a + len), only [k] is marked as failed. *)
Lemma one_failure_count len :
  forall a k,
    let marks := map (fun i => negb (i =? k)%nat) (seq a len) in
    ((a <= k < a + len)%nat -> length (filter negb marks) = 1%nat)
    /\ ((k < a)%nat -> length (filter negb marks) = 0%nat)
    /\ (length (filter (fun b : bool => b) marks) + length (filter negb marks)
        = len)%nat.
Proof.
  induction len as [| len IH]; intros a k; cbn zeta.
  - cbn. repeat split; auto; lia.
  - cbn [seq map filter]. destruct (IH (S a) k) as (IH1 & IH0 & IH2).
    destruct (Nat.eqb_spec a k) as [-> | Hne]; cbn [negb length].
    + split; [| split].
      * intros _. rewrite IH0; lia.
      * lia.
      * lia.
    + split; [| split].
      * intros Hr. apply IH1. lia.
      * intros Hr. apply IH0. lia.
      * lia.
Qed.

Lemma failed_length results :
  length (failed results) = length (filter negb (map Hooks.ur_success results)).
Proof.
  unfold failed. induction results as [| r rest IH]; cbn; [reflexivity |].
  destruct (Hooks.ur_success r); cbn; now rewrite IH.
Qed.

(** C9.  A batch of files in which the upload of file [k] fails and every
    other one succeeds: [uploadMultiple] resolves with one entry per file,
    exactly one of them (the one of file [k]) reported as failed, and the
    collection gains one record per other file, each with status
    'indexed'. *)
Theorem batch_upload_isolates_failure E files w k :
  (k < length files)%nat ->
  (forall i file,
      nth_error files i = Some file ->
      upload_succeeds E (baseUrl w) (length (sent w) + i) file = negb (i =? k)%nat) ->
  exists results added w',
    Hooks.uploadMultiple files E w = (Resolved results, w')
    /\ length results = length files
    /\ map Hooks.ur_success results = map (fun i => negb (i =? k)%nat) (seq 0 (length files))
    /\ length (failed results) = 1%nat
    /\ documents w' = (documents w ++ added)%list
    /\ length added = (length files - 1)%nat
    /\ Forall indexed added.
Proof.
  intros Hk Hflags. unfold Hooks.uploadMultiple.
  destruct (uploadMultiple_from_run files E w [])
    as (results & added & w' & Hrun & Hf & Hn & Hd & Hl & Hi).
  cbn [app] in Hrun.
  rewrite (upload_flags_pointwise files E (baseUrl w) (length (sent w)) _ Hflags) in Hf, Hl.
  destruct (one_failure_count (length files) 0 k) as (C1 & _ & C2). cbn zeta in C1, C2.
  specialize (C1 ltac:(lia)).
  exists results, added, w'. split; [exact Hrun |].
  split; [rewrite <- (length_map Hooks.ur_success), Hf, length_map, length_seq; reflexivity |].
  split; [exact Hf |].
  split; [rewrite failed_length, Hf; exact C1 |].
  split; [exact Hd |].
  split; [rewrite Hl; lia | exact Hi].
Qed.

Lemma batch_upload_isolates_failure_witness :
  exists results added w',
    Hooks.uploadMultiple three_files (failing_at 1 (VObj [("chunks_created", VNum (inject_Z 12))]))
                         (initial_world localhost) = (Resolved results, w')
    /\ length results = 3%nat
    /\ map Hooks.ur_success results = [true; false; true]
    /\ length (failed results) = 1%nat
    /\ documents w' = added
    /\ length added = 2%nat
    /\ Forall indexed added.
Proof.
  apply (batch_upload_isolates_failure
           (failing_at 1 (VObj [("chunks_created", VNum (inject_Z 12))]))
           three_files (initial_world localhost) 1%nat).
  - cbn. lia.
  - intros [| [| [| i]]] file H; cbn in H; inversion H; reflexivity.
Defined.

(* ================================================================== *)
(** * Further properties of the code *)

(** ** Errors of the Transport *)

(** X1.  The classes of an [ApiError] exclude one another, and 'not found'
    and 'rate limited' are client errors. *)
Theorem error_classes_exclusive (a : ApiError.t) :
  ApiError.isNetworkError a && ApiError.isClientError a = false
  /\ ApiError.isNetworkError a && ApiError.isServerError a = false
  /\ ApiError.isClientError a && ApiError.isServerError a = false
  /\ implb (ApiError.isNotFound a) (ApiError.isClientError a) = true
  /\ implb (ApiError.isRateLimited a) (ApiError.isClientError a) = true.
Proof.
  unfold ApiError.isNetworkError, ApiError.isClientError, ApiError.isServerError,
    ApiError.isNotFound, ApiError.isRateLimited.
  destruct a as [m s c]. cbn [ApiError.status].
  repeat split;
    repeat match goal with
      | |- context [(?x =? ?y)] => destruct (Z.eqb_spec x y)
      | |- context [(?x >=? ?y)] => destruct (Z.geb_spec x y)
      | |- context [(?x <? ?y)] => destruct (Z.ltb_spec x y)
      end; cbn; try reflexivity; lia.
Qed.

Lemma request_rejection_shape endpoint options E w e :
  fst (request endpoint options E w) = Rejected e -> exists a, e = ExApiError a.
Proof.
  run_async. cbn.
  destruct (backend E _ _) as [j | r]; cbn; [intros H; inversion H; eauto |].
  destruct (Response.ok r); cbn.
  - destruct (opt_stream options); cbn; [discriminate |].
    destruct (Response.json r); cbn; intros H; inversion H; eauto.
  - destruct (Response.json r) as [j | v]; cbn; [intros H; inversion H; eauto |].
    destruct v; cbn; intros H; inversion H; eauto.
Qed.

(** X2.  How the error of [request] classifies.  When [fetch] itself fails
    the error is a network error and nothing else.  When the backend
    answers outside 200-299 with a body that does not read as [null], the
    error carries the status of the response, so it is a client error
    exactly for 400-499 and a server error exactly from 500 on. *)
Theorem request_error_class endpoint options E w :
  match answer_to E w endpoint options with
  | inl _ =>
      exists a,
        fst (request endpoint options E w) = Rejected (ExApiError a)
        /\ ApiError.isNetworkError a = true
        /\ ApiError.isClientError a = false
        /\ ApiError.isServerError a = false
  | inr r =>
      if Response.ok r then True
      else match error_body r with
           | VNull | VUndefined => True
           | _ =>
               exists a,
                 fst (request endpoint options E w) = Rejected (ExApiError a)
                 /\ ApiError.status a = Response.status r
                 /\ ApiError.isClientError a
                    = ((400 <=? Response.status r) && (Response.status r <? 500))
                 /\ ApiError.isServerError a = (500 <=? Response.status r)
           end
  end.
Proof.
  destruct (answer_to E w endpoint options) as [j | r] eqn:Ha.
  - rewrite (request_unreachable _ _ _ _ _ Ha). eexists. repeat split; reflexivity.
  - destruct (Response.ok r) eqn:Hok; [exact I |].
    assert (G : forall m c,
               get_prop (error_body r) "message" = Resolved m ->
               get_prop (error_body r) "code" = Resolved c ->
               exists a,
                 fst (request endpoint options E w) = Rejected (ExApiError a)
                 /\ ApiError.status a = Response.status r
                 /\ ApiError.isClientError a
                    = ((400 <=? Response.status r) && (Response.status r <? 500))
                 /\ ApiError.isServerError a = (500 <=? Response.status r)).
    { intros m c Hm Hc. rewrite (request_non2xx _ _ _ _ _ _ _ Ha Hok Hm Hc).
      eexists. split; [reflexivity |]. split; [reflexivity |].
      unfold ApiError.isClientError, ApiError.isServerError. cbn [ApiError.status].
      rewrite !Z.geb_leb. split; reflexivity. }
    destruct (error_body r); try exact I; eapply G; reflexivity.
Qed.

(* ================================================================== *)
(** ** The facade *)

(** X3.  The reachability probe never rejects.  It sends one GET to
    '/health/' under the base URL, answers [true] exactly when the backend
    replies with a status in 200-299, and leaves the flag alone. *)
Theorem checkBackendAvailable_total E w :
  exists b w',
    checkBackendAvailable E w = (Resolved b, w')
    /\ sent w' = (sent w ++ [probe_of w])%list
    /\ isDemoMode w' = isDemoMode w
    /\ b = match backend E (length (sent w)) (probe_of w) with
           | inl _ => false
           | inr r => (200 <=? Response.status r) && (Response.status r <=? 299)
           end.
Proof.
  rewrite probe_run. do 2 eexists. split; [reflexivity |].
  split; [reflexivity |]. split; [reflexivity |].
  unfold probe_fails. destruct (backend E _ _) as [j | r]; [reflexivity |].
  now rewrite negb_involutive.
Qed.

(** X4.  Changing the base URL redirects the next request to it and does
    not clear the flag. *)
Theorem setBaseUrl_redirects url endpoint options E w :
  let w1 := snd (ApiService.setBaseUrl url E w) in
  isDemoMode w1 = isDemoMode w
  /\ responseIndex w1 = responseIndex w
  /\ sent (snd (request endpoint options E w1))
     = (sent w ++ [mkSent (url ++ endpoint) (request_config options)])%list.
Proof.
  cbn zeta. split; [reflexivity |]. split; [reflexivity |].
  rewrite request_logs. reflexivity.
Qed.

Lemma passthrough_is_request p :
  exists endpoint options,
    opt_stream options = false
    /\ run_passthrough p = request endpoint options.
Proof.
  destruct p; cbn [run_passthrough]; do 2 eexists; (split; [| reflexivity]); reflexivity.
Qed.

(** X5.  The methods that pass their arguments straight to [request] send
    exactly one request whatever the flag says, leave the flag and the
    counter of the simulated responder as they were (a failure does not
    latch demo mode), resolve exactly when the backend accepts the request,
    and reject with an [ApiError] otherwise. *)
Theorem passthrough_never_latches p E w :
  exists o w' rq,
    run_passthrough p E w = (o, w')
    /\ sent w' = (sent w ++ [rq])%list
    /\ isDemoMode w' = isDemoMode w
    /\ responseIndex w' = responseIndex w
    /\ is_resolved o = accepts (backend E (length (sent w)) rq)
    /\ match o with
       | Resolved _ => True
       | Rejected e => instanceof_ApiError e = true
       end.
Proof.
  destruct (passthrough_is_request p) as (endpoint & options & Hs & ->).
  pose proof (request_resolves_iff endpoint options E w Hs) as Hacc.
  pose proof (request_rejection_shape endpoint options E w) as Hshape.
  destruct (request endpoint options E w) as [o w'] eqn:Hr.
  apply request_frame in Hr. subst w'. cbn [fst] in *.
  exists o. do 2 eexists. split; [reflexivity |].
  split; [reflexivity |]. split; [reflexivity |]. split; [reflexivity |].
  split; [exact Hacc |].
  destruct o as [r | e]; [exact I |].
  destruct (Hshape e eq_refl) as [a ->]. reflexivity.
Qed.

(** X6.  [getDocuments], [listModels] and [healthCheck] never reject.  With
    the flag unset they send one request; if it resolves they return its
    result and leave the flag unset, and if it fails they set the flag and
    return what the simulated responder returns. *)
Theorem getters_never_reject c path d E w :
  getter_path c = Some path ->
  simulated c = Some d ->
  is_resolved (fst (run_call c E w)) = true
  /\ (isDemoMode w = false ->
      match request path no_options E w with
      | (Resolved r, w1) => run_call c E w = (Resolved (AReply r), w1)
      | (Rejected _, w1) =>
          run_call c E w = d E (set_isDemoMode true w1)
          /\ isDemoMode (snd (run_call c E w)) = true
      end).
Proof.
  destruct c; cbn [getter_path simulated]; try discriminate;
    intros Hp Hd; inversion Hp; inversion Hd; subst; clear Hp Hd;
    cbn [run_call]; unfold as_reply, as_plain, bind.
  - rewrite getDocuments_run. split.
    + destruct (isDemoMode w); [reflexivity |]. settle_request; reflexivity.
    + intros ->. settle_request; [reflexivity | split; reflexivity].
  - rewrite listModels_run. split.
    + destruct (isDemoMode w); [reflexivity |]. settle_request; reflexivity.
    + intros ->. settle_request; [reflexivity | split; reflexivity].
  - rewrite healthCheck_run. split.
    + destruct (isDemoMode w); [reflexivity |]. settle_request; reflexivity.
    + intros ->. settle_request; [reflexivity | split; reflexivity].
Qed.

Lemma getters_never_reject_witness :
  is_resolved (fst (run_call ListModels unreachable (initial_world localhost))) = true
  /\ isDemoMode (snd (run_call ListModels unreachable (initial_world localhost))) = true.
Proof.
  destruct (getters_never_reject ListModels "/models/" _ unreachable
              (initial_world localhost) eq_refl eq_refl) as [H1 H2].
  split; [exact H1 |]. exact (proj2 (H2 eq_refl)).
Defined.

(** The state [sendMessage] leaves, branch by branch. *)
Lemma sendMessage_sent message options E w :
  sent (snd (ApiService.sendMessage message options E w)) =
    (sent w ++
       if isDemoMode w then []
       else if probe_fails E w then [probe_of w]
            else [probe_of w;
                  request_of (logged w (probe_of w)) "/chat/"
                             (ApiService.chat_request message options)])%list.
Proof.
  rewrite sendMessage_run.
  destruct (isDemoMode w).
  { rewrite demo_sendMessage_run. cbn. now rewrite app_nil_r. }
  destruct (probe_fails E w).
  { rewrite demo_sendMessage_run. reflexivity. }
  unfold chat_reply. settle_request.
  - destruct (real_message _); [| rewrite demo_sendMessage_run];
      cbn; rewrite <- app_assoc; reflexivity.
  - rewrite demo_sendMessage_run. cbn. rewrite <- app_assoc. reflexivity.
Qed.

(** X7.  The requests of one [sendMessage]: none when the flag is set, the
    probe alone when the probe fails, and otherwise the probe followed by
    one POST of the chat payload to '/chat/'; never more. *)
Theorem sendMessage_request_count message options E w :
  exists new,
    sent (snd (ApiService.sendMessage message options E w)) = (sent w ++ new)%list
    /\ map sent_url new =
         (if isDemoMode w then []
          else if probe_fails E w then [baseUrl w ++ "/health/"]
               else [baseUrl w ++ "/health/"; baseUrl w ++ "/chat/"])
    /\ (length new <= 2)%nat.
Proof.
  rewrite sendMessage_sent. eexists. split; [reflexivity |].
  destruct (isDemoMode w); [cbn; split; [reflexivity | lia] |].
  destruct (probe_fails E w); cbn; (split; [reflexivity | lia]).
Qed.

Lemma last_sent_app (l : list request_sent) rq :
  last (map Some (l ++ [rq])%list) None = Some rq.
Proof.
  rewrite map_app. cbn [map]. apply last_last.
Qed.

(** X8.  A chat call that leaves [useRag] out asks the backend for
    retrieval ([use_rag: true] is the default of the payload), but when the
    simulated responder serves it the reply carries no source: the
    responder reads the option as given. *)
Theorem omitted_useRag message options E w :
  useRag options = VUndefined ->
  exists m w',
    ApiService.sendMessage message options E w = (Resolved m, w')
    /\ (if falls_back E w message options then msg_sources m = VArr [] else True)
    /\ (if isDemoMode w || probe_fails E w then True
        else exists rq,
            last_sent w' = Some rq
            /\ sent_url rq = baseUrl w ++ "/chat/"
            /\ get_prop (payload_of rq) "use_rag" = Resolved (VBool true)).
Proof.
  intros Hu.
  pose proof (sendMessage_sent message options E w) as Hsent.
  revert Hsent. rewrite sendMessage_run. unfold falls_back.
  destruct (isDemoMode w); cbn [orb].
  { rewrite demo_sendMessage_run. intros _. do 2 eexists. split; [reflexivity |].
    cbn. rewrite Hu. auto. }
  destruct (probe_fails E w); cbn [orb].
  { rewrite demo_sendMessage_run. intros _. do 2 eexists. split; [reflexivity |].
    cbn. rewrite Hu. auto. }
  assert (L : forall w',
             sent w' =
               (sent w ++ [probe_of w;
                           request_of (logged w (probe_of w)) "/chat/"
                                      (ApiService.chat_request message options)])%list ->
             exists rq,
               last_sent w' = Some rq
               /\ sent_url rq = baseUrl w ++ "/chat/"
               /\ get_prop (payload_of rq) "use_rag" = Resolved (VBool true)).
  { intros w' Hs. eexists. unfold last_sent. rewrite Hs.
    change [probe_of w;
            request_of (logged w (probe_of w)) "/chat/"
                       (ApiService.chat_request message options)]
      with ([probe_of w] ++
            [request_of (logged w (probe_of w)) "/chat/"
                        (ApiService.chat_request message options)])%list.
    rewrite app_assoc, last_sent_app. split; [reflexivity |].
    split; [reflexivity |]. cbn. rewrite Hu. reflexivity. }
  destruct (chat_reply E w message options) as [[r | e] w2] eqn:Hr; cbn [fst unusable].
  - unfold chat_reply in Hr.
    destruct (request_plain "/chat/" (ApiService.chat_request message options)
                            _ _ _ _ eq_refl Hr) as [v ->].
    pose proof (real_message_plain v) as Hm. cbn [reply_prop].
    destruct (real_message (Plain v)) as [m |].
    + destruct Hm as (Hid & _). rewrite Hid. cbn [negb snd]. intros Hs.
      do 2 eexists. split; [reflexivity |]. split; [exact I | apply L, Hs].
    + rewrite Hm. cbn [negb]. rewrite demo_sendMessage_run. cbn [snd]. intros Hs.
      do 2 eexists. split; [reflexivity |]. split.
      * cbn. rewrite Hu. reflexivity.
      * apply L. exact Hs.
  - rewrite demo_sendMessage_run. cbn [snd]. intros Hs.
    do 2 eexists. split; [reflexivity |]. split.
    + cbn. rewrite Hu. reflexivity.
    + apply L. exact Hs.
Qed.

Lemma omitted_useRag_witness :
  exists m w',
    ApiService.sendMessage "hi" no_chat_options (failing_at 1 (VObj []))
                           (initial_world localhost) = (Resolved m, w')
    /\ msg_sources m = VArr []
    /\ exists rq,
        last_sent w' = Some rq
        /\ sent_url rq = "http://localhost:8000/chat/"
        /\ get_prop (payload_of rq) "use_rag" = Resolved (VBool true).
Proof.
  exact (omitted_useRag "hi" no_chat_options (failing_at 1 (VObj []))
           (initial_world localhost) eq_refl).
Defined.

(* ================================================================== *)
(** ** Decoding the token stream *)

Lemma split_newline_not_nil s : split_newline s <> [].
Proof.
  destruct s as [| c rest]; cbn; [discriminate |].
  destruct (Ascii.eqb c "010"); [discriminate |].
  destruct (split_newline rest); discriminate.
Qed.

(** X9.  Splitting a chunk into lines loses nothing: the lines joined by
    newlines are the chunk again, no line contains a newline, and there is
    one more line than there are newlines. *)
Theorem split_newline_round_trip s :
  String.concat newline (split_newline s) = s
  /\ forallb no_newline (split_newline s) = true
  /\ length (split_newline s) = S (count_newlines s).
Proof.
  induction s as [| c rest (IH1 & IH2 & IH3)]; [repeat split; reflexivity |].
  cbn [split_newline no_newline count_newlines].
  pose proof (split_newline_not_nil rest) as Hn.
  destruct (Ascii.eqb c "010") eqn:Hc.
  - apply Ascii.eqb_eq in Hc. subst c. cbn [forallb no_newline andb length].
    rewrite IH2, IH3. repeat split; try reflexivity.
    destruct (split_newline rest) as [| l ls]; [congruence |].
    change (String.concat newline (EmptyString :: l :: ls))
      with (EmptyString ++ newline ++ String.concat newline (l :: ls)).
    rewrite IH1. reflexivity.
  - destruct (split_newline rest) as [| l ls]; [congruence |].
    cbn [forallb no_newline length] in *. rewrite Hc. cbn [negb andb].
    repeat split; auto.
    destruct ls as [| l' ls].
    + cbn in IH1 |- *. now rewrite IH1.
    + change (String.concat newline (String c l :: l' :: ls))
        with (String c (l ++ newline ++ String.concat newline (l' :: ls))).
      change (String.concat newline (l :: l' :: ls))
        with (l ++ newline ++ String.concat newline (l' :: ls)) in IH1.
      now rewrite IH1.
Qed.

(** X10.  Lines that do not start with 'data: ' are ignored, whatever the
    callbacks are: dropping them from a chunk changes nothing. *)
Theorem stream_ignores_other_lines cb lines :
  forall fullContent E w,
    ApiService.stream_lines cb lines fullContent E w
    = ApiService.stream_lines cb (filter is_data_line lines) fullContent E w.
Proof.
  induction lines as [| line rest IH]; intros full E w; [reflexivity |].
  cbn [ApiService.stream_lines filter]. unfold is_data_line at 1.
  destruct (startsWith "data: " line) eqn:Hd; [| apply IH].
  cbn [ApiService.stream_lines]. rewrite Hd.
  destruct (String.eqb (slice 6 line) "[DONE]"); [reflexivity |].
  unfold bind. destruct (call_opt (onToken cb) (slice 6 line) E w) as [[[] | e] w1];
    [apply IH | reflexivity].
Qed.

Lemma stream_lines_cut cb pre :
  forall line post fullContent E w,
    is_done_line line = true ->
    ApiService.stream_lines cb (pre ++ line :: post) fullContent E w
    = ApiService.stream_lines cb (pre ++ [line]) fullContent E w
    /\ match fst (ApiService.stream_lines cb (pre ++ line :: post) fullContent E w) with
       | Resolved (inr _) => False
       | _ => True
       end.
Proof.
  induction pre as [| l pre IH]; intros line post full E w Hdone.
  - cbn [app ApiService.stream_lines]. unfold is_done_line in Hdone.
    apply andb_prop in Hdone. destruct Hdone as [-> ->].
    unfold bind, ret. destruct (call_opt (onComplete cb) full E w) as [[[] | e] w1];
      split; cbn; auto.
  - cbn [app ApiService.stream_lines].
    destruct (startsWith "data: " l); [| apply IH, Hdone].
    destruct (String.eqb (slice 6 l) "[DONE]").
    + unfold bind, ret. destruct (call_opt (onComplete cb) full E w) as [[[] | e] w1];
        split; cbn; auto.
    + unfold bind. destruct (call_opt (onToken cb) (slice 6 l) E w) as [[[] | e] w1].
      * apply IH, Hdone.
      * split; cbn; auto.
Qed.

(** X11.  Nothing after the terminator is read or delivered: once a line
    of a chunk is 'data: [DONE]', the lines after it in the chunk, the
    chunks after it in the body and the way the body ends make no
    difference, whatever the callbacks are. *)
Theorem stream_stops_at_terminator cb chunk pre line post rest fin rest' fin'
        fullContent E w :
  split_newline chunk = (pre ++ line :: post)%list ->
  is_done_line line = true ->
  ApiService.stream_lines cb (split_newline chunk) fullContent E w
  = ApiService.stream_lines cb (pre ++ [line]) fullContent E w
  /\ ApiService.stream_read cb (chunk :: rest) fin fullContent E w
     = ApiService.stream_read cb (chunk :: rest') fin' fullContent E w.
Proof.
  intros Hsplit Hdone.
  destruct (stream_lines_cut cb pre line post fullContent E w Hdone) as [Hcut Hnot].
  rewrite Hsplit. split; [exact Hcut |].
  cbn [ApiService.stream_read]. unfold bind. rewrite Hsplit.
  destruct (ApiService.stream_lines cb (pre ++ line :: post) fullContent E w)
    as [[[full | full] | e] w1]; cbn in Hnot; [reflexivity | contradiction | reflexivity].
Qed.

Lemma stream_stops_at_terminator_witness :
  ApiService.stream_read recorder
    ["data: Hel" ++ newline ++ "data: [DONE]" ++ newline ++ "data: lost"; "data: late"]
    (ReadError (TypeError "network error")) EmptyString unreachable (initial_world localhost)
  = ApiService.stream_read recorder
      ["data: Hel" ++ newline ++ "data: [DONE]" ++ newline ++ "data: lost"]
      EndOfStream EmptyString unreachable (initial_world localhost).
Proof.
  apply (stream_stops_at_terminator recorder _ ["data: Hel"] "data: [DONE]" ["data: lost"]);
    reflexivity.
Defined.

Lemma only_calls_differ_refl w : only_calls_differ w w.
Proof. unfold only_calls_differ. repeat split; reflexivity. Qed.

Lemma only_calls_differ_trans w1 w2 w3 :
  only_calls_differ w1 w2 -> only_calls_differ w2 w3 -> only_calls_differ w1 w3.
Proof.
  unfold only_calls_differ.
  intros (A1 & A2 & A3 & A4 & A5 & A6 & A7 & A8 & A9 & A10 & A11 & A12)
         (B1 & B2 & B3 & B4 & B5 & B6 & B7 & B8 & B9 & B10 & B11 & B12).
  repeat split; congruence.
Qed.

Lemma only_calls_differ_set cs w : only_calls_differ w (set_calls cs w).
Proof. unfold only_calls_differ. repeat split; reflexivity. Qed.

Lemma stream_lines_frame lines :
  forall fullContent E w,
    only_calls_differ w (snd (ApiService.stream_lines recorder lines fullContent E w)).
Proof.
  induction lines as [| line rest IH]; intros full E w;
    [apply only_calls_differ_refl |].
  cbn [ApiService.stream_lines].
  destruct (startsWith "data: " line); [| apply IH].
  destruct (String.eqb (slice 6 line) "[DONE]").
  - apply only_calls_differ_set.
  - unfold bind at 1. cbn [call_opt recorder onToken].
    unfold record_call at 1, modify at 1.
    eapply only_calls_differ_trans; [apply only_calls_differ_set | apply IH].
Qed.

Lemma stream_read_frame pending fin :
  forall fullContent E w,
    only_calls_differ w (snd (ApiService.stream_read recorder pending fin fullContent E w)).
Proof.
  induction pending as [| chunk rest IH]; intros full E w; cbn [ApiService.stream_read].
  - destruct fin; [apply only_calls_differ_set | apply only_calls_differ_refl].
  - unfold bind at 1.
    pose proof (stream_lines_frame (split_newline chunk) full E w) as Hl.
    destruct (ApiService.stream_lines recorder (split_newline chunk) full E w)
      as [[[f | f] | e] w1]; cbn [snd] in *; try exact Hl.
    eapply only_calls_differ_trans; [exact Hl | apply IH].
Qed.

(** X12.  A streaming call never falls back.  With callbacks that only
    record their calls, it sends exactly one request, to '/chat/stream',
    whether or not the flag is set, and leaves the flag and the counter of
    the simulated responder as they were, also when it fails. *)
Theorem streamMessage_never_falls_back message options E w :
  let w' := snd (ApiService.streamMessage message options recorder E w) in
  sent w' = (sent w ++ [request_of w "/chat/stream" (stream_request message options)])%list
  /\ isDemoMode w' = isDemoMode w
  /\ responseIndex w' = responseIndex w.
Proof.
  cbn zeta.
  assert (G : only_calls_differ
                (logged w (request_of w "/chat/stream" (stream_request message options)))
                (snd (ApiService.streamMessage message options recorder E w))).
  { unfold ApiService.streamMessage. fold (stream_request message options).
    unfold try_catch, bind at 1.
    destruct (request "/chat/stream" (stream_request message options) E w)
      as [[r | e] w1] eqn:Hr; apply request_frame in Hr; subst w1.
    - destruct r as [v | r].
      + unfold bind, lift, throw. destruct (get_prop v "body");
          apply only_calls_differ_set.
      + destruct (Response.body r) as [s |]; [| apply only_calls_differ_set].
        pose proof (stream_read_frame (chunks s) (ending s) EmptyString E
                      (logged w (request_of w "/chat/stream"
                                            (stream_request message options)))) as Hs.
        destruct (ApiService.stream_read recorder (chunks s) (ending s) EmptyString E _)
          as [[[] | e] w1]; cbn [snd] in *; [exact Hs |].
        eapply only_calls_differ_trans; [exact Hs | apply only_calls_differ_set].
    - apply only_calls_differ_set. }
  destruct G as (_ & G2 & G3 & G4 & _). rewrite G2, G3, G4. repeat split; reflexivity.
Qed.

Lemma split_newline_one_line s : no_newline s = true -> split_newline s = [s].
Proof.
  induction s as [| c rest IH]; [reflexivity |]. cbn [no_newline split_newline].
  intros H. apply andb_prop in H. destruct H as [Hc Hr].
  apply negb_true_iff in Hc. rewrite Hc, (IH Hr). reflexivity.
Qed.

Lemma split_newline_append s t :
  no_newline s = true ->
  split_newline (s ++ newline ++ t) = s :: split_newline t.
Proof.
  induction s as [| c rest IH]; [reflexivity |]. cbn [no_newline].
  intros H. apply andb_prop in H. destruct H as [Hc Hr].
  apply negb_true_iff in Hc.
  change (split_newline (String c (rest ++ newline ++ t)) = String c rest :: split_newline t).
  cbn [split_newline]. rewrite Hc, (IH Hr). reflexivity.
Qed.

Lemma data_line_starts a : startsWith "data: " ("data: " ++ a) = true.
Proof. unfold startsWith. cbn. destruct a; reflexivity. Qed.

(** X13.  The decoder works chunk by chunk.  When a chunk boundary cuts a
    data line in two, the part in the first chunk is delivered as a token
    of its own and the rest, at the head of the next chunk, is ignored: the
    completed content lacks it. *)
Theorem token_cut_at_chunk_boundary a b E w :
  no_newline a = true ->
  no_newline b = true ->
  String.eqb a "[DONE]" = false ->
  startsWith "data: " b = false ->
  calls (snd (ApiService.stream_read recorder
                ["data: " ++ a; b ++ newline ++ "data: [DONE]"]
                EndOfStream EmptyString E w))
  = (calls w ++ [OnToken a; OnComplete a])%list.
Proof.
  intros Ha Hb Hdone Hprefix.
  cbn [ApiService.stream_read]. unfold bind at 1.
  rewrite (split_newline_one_line ("data: " ++ a)) by exact Ha.
  cbn [ApiService.stream_lines].
  rewrite data_line_starts.
  change (slice 6 ("data: " ++ a)) with a. rewrite Hdone.
  unfold bind at 1. cbn [call_opt recorder onToken].
  unfold record_call at 1, modify at 1. cbn [ApiService.stream_lines ret].
  unfold bind at 1. rewrite (split_newline_append b "data: [DONE]" Hb).
  cbn [ApiService.stream_lines split_newline]. rewrite Hprefix.
  change (split_newline "data: [DONE]") with ["data: [DONE]"].
  cbn. rewrite <- app_assoc. reflexivity.
Qed.

Lemma token_cut_at_chunk_boundary_witness :
  calls (snd (ApiService.stream_read recorder
                ["data: Hel"; "lo" ++ newline ++ "data: [DONE]"]
                EndOfStream EmptyString unreachable (initial_world localhost)))
  = [OnToken "Hel"; OnComplete "Hel"].
Proof.
  apply (token_cut_at_chunk_boundary "Hel" "lo" unreachable (initial_world localhost));
    reflexivity.
Defined.

(* ================================================================== *)
(** ** Documents controller *)

Lemma deleteDocument_run docId E w :
  Documents.deleteDocument docId E w =
    match request ("/rag/documents/" ++ docId) delete_options E w with
    | (Resolved _, w1) =>
        (Resolved tt,
         set_documents
           (filter (fun d => negb (String.eqb (doc_id d) docId)) (documents w1)) w1)
    | (Rejected e, w1) => (Rejected e, set_docs_error (Some e) w1)
    end.
Proof.
  unfold Documents.deleteDocument, Endpoints.deleteDocument. fold delete_options.
  run_monad. destruct (request _ _ E w) as [[r | e] w1]; reflexivity.
Qed.

(** X14.  [deleteDocument] of the controller removes a record only after
    the backend has accepted the DELETE: then no record with that id is
    left and the others stay, in order.  When the request fails the
    collection is as before, the error is kept and the call rejects with
    it. *)
Theorem deleteDocument_removes docId E w :
  let rq := request_of w ("/rag/documents/" ++ docId) delete_options in
  sent (snd (Documents.deleteDocument docId E w)) = (sent w ++ [rq])%list
  /\ if accepts (backend E (length (sent w)) rq)
     then fst (Documents.deleteDocument docId E w) = Resolved tt
          /\ documents (snd (Documents.deleteDocument docId E w))
             = filter (fun d => negb (String.eqb (doc_id d) docId)) (documents w)
          /\ (forall d, In d (documents (snd (Documents.deleteDocument docId E w)))
                        <-> In d (documents w) /\ doc_id d <> docId)
     else exists e,
         fst (Documents.deleteDocument docId E w) = Rejected e
         /\ instanceof_ApiError e = true
         /\ documents (snd (Documents.deleteDocument docId E w)) = documents w
         /\ docs_error (snd (Documents.deleteDocument docId E w)) = Some e.
Proof.
  cbn zeta. rewrite deleteDocument_run.
  pose proof (request_resolves_iff ("/rag/documents/" ++ docId) delete_options E w eq_refl)
    as Hacc.
  pose proof (request_rejection_shape ("/rag/documents/" ++ docId) delete_options E w)
    as Hshape.
  unfold answer_to in Hacc.
  destruct (request ("/rag/documents/" ++ docId) delete_options E w)
    as [[r | e] w1] eqn:Hr; apply request_frame in Hr; subst w1; cbn [fst] in *;
    rewrite <- Hacc; cbn [is_resolved].
  - split; [reflexivity |]. split; [reflexivity |]. split; [reflexivity |].
    intros d. cbn. rewrite filter_In, negb_true_iff, String.eqb_neq. tauto.
  - split; [reflexivity |]. exists e. destruct (Hshape e eq_refl) as [a ->].
    repeat split; reflexivity.
Qed.

(** X15.  One upload through the controller always ends with [isUploading]
    cleared.  Progress is 100 and the error slot empty when it resolved;
    progress is 0 and the error slot holds the error it rejected with
    otherwise.  It sends its request whatever the flag says and does not
    change the flag. *)
Theorem hook_upload_flags file E w :
  exists o w',
    Hooks.uploadDocument file E w = (o, w')
    /\ isUploading w' = false
    /\ uploadProgress w' = (if is_resolved o then 100 else 0)
    /\ docs_error w' = match o with Resolved _ => None | Rejected e => Some e end
    /\ isDemoMode w' = isDemoMode w
    /\ length (sent w') = S (length (sent w)).
Proof.
  unfold Hooks.uploadDocument, ApiService.uploadDocument. cbn [app].
  fold (upload_options file). run_monad.
  destruct (request "/rag/ingest/upload" (upload_options file) E _)
    as [[r | e] w1] eqn:Hr; apply request_frame in Hr; subst w1.
  - destruct (reply_prop r "chunks_created"); do 2 eexists;
      (split; [reflexivity |]); cbn;
      rewrite length_app; cbn; repeat split; auto; lia.
  - do 2 eexists. split; [reflexivity |]. cbn. rewrite length_app. cbn.
    repeat split; auto; lia.
Qed.

Lemma flags_split (flags : list bool) :
  (length (filter negb flags) + length (filter (fun b : bool => b) flags)
   = length flags)%nat.
Proof.
  induction flags as [| [|] rest IH]; cbn; lia.
Qed.

(** X16.  Whatever uploads of a batch fail, [uploadMultiple] resolves with
    one entry per file, in the order of the files, and every file is
    either reported as failed or has added one record with status
    'indexed': failures and new records add up to the size of the
    batch. *)
Theorem uploadMultiple_accounts_for_every_file files E w :
  exists results added w',
    Hooks.uploadMultiple files E w = (Resolved results, w')
    /\ map Hooks.ur_file results = map file_name files
    /\ documents w' = (documents w ++ added)%list
    /\ Forall indexed added
    /\ (length (failed results) + length added = length files)%nat.
Proof.
  unfold Hooks.uploadMultiple.
  destruct (uploadMultiple_from_run files E w [])
    as (results & added & w' & Hrun & Hf & Hn & Hd & Hl & Hi).
  cbn [app] in Hrun. exists results, added, w'.
  split; [exact Hrun |]. split; [exact Hn |]. split; [exact Hd |]. split; [exact Hi |].
  rewrite failed_length, Hf, Hl.
  rewrite flags_split.
  rewrite <- Hf, length_map, <- (length_map Hooks.ur_file), Hn, length_map. reflexivity.
Qed.

Lemma handleUpload_each_step file rest E w :
  Documents.handleUpload_each (file :: rest) E w
  = Documents.handleUpload_each rest E (snd (Hooks.uploadDocument file E w)).
Proof.
  cbn [Documents.handleUpload_each]. unfold bind, try_catch, ret.
  destruct (Hooks.uploadDocument file E w) as [[r | e] w1]; reflexivity.
Qed.

Lemma uploadMultiple_from_step file rest results E w :
  exists entry,
    Hooks.uploadMultiple_from (file :: rest) results E w
    = Hooks.uploadMultiple_from rest (results ++ [entry])%list E
        (snd (Hooks.uploadDocument file E w)).
Proof.
  cbn [Hooks.uploadMultiple_from]. unfold bind, try_catch, ret.
  destruct (Hooks.uploadDocument file E w) as [[r | e] w1]; eexists; reflexivity.
Qed.

Lemma handleUpload_each_run files :
  forall results E w,
    fst (Documents.handleUpload_each files E w) = Resolved tt
    /\ snd (Documents.handleUpload_each files E w)
       = snd (Hooks.uploadMultiple_from files results E w).
Proof.
  induction files as [| file rest IH]; intros results E w; [split; reflexivity |].
  rewrite handleUpload_each_step.
  destruct (uploadMultiple_from_step file rest results E w) as [entry ->].
  apply IH.
Qed.

(** X17.  [handleUpload] of the documents page never rejects and leaves
    the state [uploadMultiple] leaves for the same files: a file that fails
    is skipped and the rest are still uploaded.  A missing or empty list
    sends nothing. *)
Theorem handleUpload_like_uploadMultiple files E w :
  fst (Documents.handleUpload (Some files) E w) = Resolved tt
  /\ snd (Documents.handleUpload (Some files) E w) = snd (Hooks.uploadMultiple files E w)
  /\ Documents.handleUpload None E w = (Resolved tt, w)
  /\ Documents.handleUpload (Some []) E w = (Resolved tt, w).
Proof.
  destruct files as [| file rest]; [repeat split; reflexivity |].
  cbn [Documents.handleUpload]. unfold Hooks.uploadMultiple.
  destruct (handleUpload_each_run (file :: rest) [] E w) as [H1 H2].
  repeat split; auto.
Qed.

(* ================================================================== *)
(** ** What the availability monitor shows *)

(** X18.  A health check of the monitor always resolves and records the
    time.  It shows 'demo' whenever the flag was set or the '/health/'
    request failed, so a backend that cannot be reached is never shown as
    'unhealthy'.  Otherwise it shows the [status] field of the backend's
    reply unchanged, whatever it says, and 'unhealthy' when the reply is
    [null], whose fields cannot be read. *)
Theorem checkHealth_status E w :
  exists w',
    Hooks.checkHealth E w = (Resolved tt, w')
    /\ hc_status w' =
         (if isDemoMode w then VStr "demo"
          else match fst (request "/health/" no_options E w) with
               | Rejected _ => VStr "demo"
               | Resolved r =>
                   match reply_prop r "status" with
                   | Resolved st => st
                   | Rejected _ => VStr "unhealthy"
                   end
               end)
    /\ (forall v,
          isDemoMode w = false ->
          fst (request "/health/" no_options E w) = Resolved (Plain v) ->
          hc_status w' =
            match v with
            | VNull | VUndefined => VStr "unhealthy"
            | VObj fields => own_property "status" fields
            | _ => VUndefined
            end)
    /\ exists t, hc_lastCheck w' = Some t.
Proof.
  rewrite checkHealth_run, healthCheck_run.
  destruct (isDemoMode w).
  { eexists. split; [reflexivity |]. cbn. split; [reflexivity |].
    split; [discriminate | eauto]. }
  destruct (request "/health/" no_options E w) as [[r | e] w1]; cbn [fst].
  - destruct (reply_prop r "status") as [st | e1] eqn:Hst;
      eexists; (split; [reflexivity |]); cbn; (split; [reflexivity |]);
      (split; [| eauto]); intros v _ Hv; inversion Hv; subst r;
      destruct v; cbn in Hst; inversion Hst; reflexivity.
  - eexists. split; [reflexivity |]. cbn. split; [reflexivity |].
    split; [discriminate | eauto].
Qed.

(* ================================================================== *)
(** ** Session state controllers *)

Example blank_texts :
  blank EmptyString = true
  /\ blank (" " ++ newline ++ "  ") = true
  /\ blank " hi " = false
  /\ blank "⚠" = false
  /\ blank "　" = true
  /\ blank (String (ascii_of_nat 226) (String (ascii_of_nat 128)
              (String (ascii_of_nat 131) EmptyString))) = true
  /\ blank (String (ascii_of_nat 226) (String (ascii_of_nat 128)
              (String (ascii_of_nat 139) EmptyString))) = false
  /\ blank (String (ascii_of_nat 194) (String (ascii_of_nat 160) EmptyString)) = true
  /\ blank (String (ascii_of_nat 194) (String (ascii_of_nat 133) EmptyString)) = false.
Proof. repeat split; reflexivity. Qed.

Example text_of_values :
  text_of (fun _ => "?") (VArr [VStr "a"; VNull; VArr [VBool true; VStr "b"]]) = "a,,true,b"
  /\ text_of (fun _ => "?") (VObj []) = "[object Object]".
Proof. split; reflexivity. Qed.

Ltac run_hook :=
  unfold Controllers.push_message in *;
  unfold hbind, htry, hfinally, hmodify, hret, hthrow, run in *.

Lemma facade_sendMessage_resolves message options E w :
  exists m w', ApiService.sendMessage message options E w = (Resolved m, w').
Proof.
  rewrite sendMessage_run.
  destruct (isDemoMode w); [rewrite demo_sendMessage_run; eauto |].
  destruct (probe_fails E w); [rewrite demo_sendMessage_run; eauto |].
  destruct (chat_reply E w message options) as [[r | e] w2].
  - destruct (real_message r); [| rewrite demo_sendMessage_run]; eauto.
  - rewrite demo_sendMessage_run; eauto.
Qed.

(** X19.  [sendMessage] of the chat controller does nothing for a blank
    text.  For any other text it never rejects: it appends the user's
    message, calls [sendMessage] of the facade with the text and the
    options of the settings, and appends one assistant message carrying
    the content, sources and usage of exactly the Message that call
    resolved with, never an error-flagged one.  The services are left as
    the facade left them, [isLoading] is cleared and no error is kept. *)
Theorem chat_sendMessage_appends number_text settings content conversationId E a :
  if blank content
  then Controllers.sendMessage number_text settings content conversationId E a
       = (Resolved None, a)
  else exists response w1 a',
      ApiService.sendMessage content (Controllers.chat_options settings conversationId)
                             E (chat_facade_state settings a)
      = (Resolved response, w1)
      /\ Controllers.sendMessage number_text settings content conversationId E a
         = (Resolved (Some response), a')
      /\ core a' = set_ticks (S (ticks w1)) w1
      /\ messages a' =
           (messages a
              ++ [mkChatMessage "user" (VStr content) (clock E (ticks (core a)))
                                VUndefined VUndefined false;
                  mkChatMessage "assistant" (msg_content response) (clock E (ticks w1))
                                (msg_sources response) (msg_usage response) false])%list
      /\ chat_isLoading a' = false
      /\ chat_error a' = None.
Proof.
  unfold Controllers.sendMessage. destruct (blank content); [reflexivity |].
  unfold Controllers.apply_apiUrl, chat_facade_state. run_hook.
  cbn [Date_now core set_core set_chat_error set_chat_isLoading set_messages messages
       chat_isLoading chat_error results isSearching search_error models currentModel
       models_isLoading models_error testResult testing].
  destruct settings as [s |];
    [destruct (negb (String.eqb (apiUrl s) EmptyString)) |];
    cbn [ApiService.setBaseUrl modify core set_core set_chat_error set_chat_isLoading
         set_messages messages chat_isLoading chat_error results isSearching search_error
         models currentModel models_isLoading models_error testResult testing];
    match goal with
    | |- context [ApiService.sendMessage ?c ?o ?E ?w] =>
        destruct (facade_sendMessage_resolves c o E w) as (m & w' & Hm)
    end;
    rewrite Hm; exists m, w'; eexists; (split; [reflexivity |]);
    (split; [reflexivity |]); cbn; rewrite <- app_assoc; repeat split; reflexivity.
Qed.

(** X20.  [search] of the search controller sends nothing for a blank
    query and empties the results.  Otherwise it calls [search] of the
    facade, which resolves exactly when the backend accepts the request,
    and ends with [isSearching] cleared and the services as the facade left
    them.  When the facade resolves, the controller resolves with that
    reply and the results are replaced by its [results] (none when the
    field is falsy).  When the facade rejects, or the reply is [null], the
    controller rejects with the same error, keeps it, and drops the
    previous results. *)
Theorem search_controller query options E a :
  if blank query
  then Controllers.search query options E a = (Resolved None, set_results (VArr []) a)
  else exists o1 w1 a',
      ApiService.search query options E (core a) = (o1, w1)
      /\ is_resolved o1
         = accepts (backend E (length (sent (core a)))
                      (request_of (core a) "/rag/search" (search_request query options)))
      /\ core a' = w1
      /\ isSearching a' = false
      /\ match o1 with
         | Resolved reply =>
             match reply_prop reply "results" with
             | Resolved found =>
                 Controllers.search query options E a = (Resolved (Some reply), a')
                 /\ results a' = js_or found (VArr [])
                 /\ search_error a' = None
             | Rejected e =>
                 Controllers.search query options E a = (Rejected e, a')
                 /\ results a' = VArr []
                 /\ search_error a' = Some e
             end
         | Rejected e =>
             Controllers.search query options E a = (Rejected e, a')
             /\ results a' = VArr []
             /\ search_error a' = Some e
         end.
Proof.
  unfold Controllers.search. destruct (blank query); [reflexivity |].
  unfold ApiService.search. fold (search_request query options). run_hook. unfold lift.
  cbn [core set_core set_isSearching set_search_error].
  pose proof (request_resolves_iff "/rag/search" (search_request query options) E (core a)
                eq_refl) as Hacc.
  unfold answer_to in Hacc.
  destruct (request "/rag/search" (search_request query options) E (core a))
    as [[r | e] w1]; cbn [fst] in Hacc.
  - cbn [core set_core]. destruct (reply_prop r "results") as [found | e] eqn:Hres;
      do 3 eexists; (split; [reflexivity |]); (split; [exact Hacc |]);
      (split; [shelve |]); (split; [shelve |]);
      lazy beta iota; rewrite Hres;
      (split; [reflexivity |]); split; reflexivity.
    Unshelve. all: reflexivity.
  - do 3 eexists. split; [reflexivity |]. split; [exact Hacc |].
    split; [shelve |]. split; [shelve |]. lazy beta iota.
    split; [reflexivity |]. split; reflexivity.
    Unshelve. all: reflexivity.
Qed.

(** X21.  [switchModel] of the models controller changes [currentModel]
    only after the backend has accepted the switch; when the request fails
    [currentModel] stays as it was, the error is kept and the call rejects.
    [isLoading] is cleared either way.  The flag of the facade plays no
    part. *)
Theorem models_switchModel modelName E a :
  exists o a',
    Controllers.switchModel modelName E a = (o, a')
    /\ is_resolved o
       = accepts (backend E (length (sent (core a)))
                    (request_of (core a) "/models/switch" (switch_request modelName)))
    /\ currentModel a' = (if is_resolved o then VStr modelName else currentModel a)
    /\ models_error a' = match o with Resolved _ => None | Rejected e => Some e end
    /\ models_isLoading a' = false.
Proof.
  unfold Controllers.switchModel, ApiService.switchModel.
  fold (switch_request modelName). run_hook.
  cbn [core set_core set_models_isLoading set_models_error].
  pose proof (request_resolves_iff "/models/switch" (switch_request modelName) E (core a)
                eq_refl) as Hacc.
  unfold answer_to in Hacc.
  destruct (request "/models/switch" (switch_request modelName) E (core a))
    as [[r | e] w1]; cbn [fst] in Hacc; do 2 eexists;
    (split; [reflexivity |]); (split; [exact Hacc |]); cbn; auto.
Qed.

(** X22.  [fetchModels] of the models controller never rejects and clears
    [isLoading].  When the flag is set or the '/models/' request fails it
    shows the models of the simulated responder with 'deepseek-r1:latest'
    as the current one, and the flag is set afterwards. *)
Theorem models_fetchModels E a :
  exists a',
    Controllers.fetchModels E a = (Resolved tt, a')
    /\ models_isLoading a' = false
    /\ if isDemoMode (core a)
          || negb (is_resolved (fst (request "/models/" no_options E (core a))))
       then models a' = VArr (DemoApiService.DEMO_MODELS E)
            /\ currentModel a' = VStr "deepseek-r1:latest"
            /\ isDemoMode (core a') = true
       else True.
Proof.
  unfold Controllers.fetchModels. run_hook. unfold lift.
  cbn [core set_core set_models_isLoading set_models_error].
  rewrite listModels_run.
  destruct (isDemoMode (core a)) eqn:Hd; cbn [orb].
  { eexists. split; [reflexivity |]. cbn. rewrite Hd. auto. }
  destruct (request "/models/" no_options E (core a)) as [[r | e] w1]; cbn [fst is_resolved negb].
  - destruct (reply_prop r "models") as [listed | e1];
      [destruct (reply_prop r "current_model") as [current | e2] |];
      eexists; (split; [reflexivity |]); cbn; auto.
  - eexists. split; [reflexivity |]. cbn. auto.
Qed.

(** X23.  [testConnection] of the settings page never rejects and clears
    [testing].  Because [healthCheck] falls back instead of failing, the
    test reports success, with status 'demo', whenever the flag is set or
    the '/health/' request fails. *)
Theorem testConnection_reports_success number_text E a :
  exists a',
    Controllers.testConnection number_text E a = (Resolved tt, a')
    /\ testing a' = false
    /\ if isDemoMode (core a)
          || negb (is_resolved (fst (request "/health/" no_options E (core a))))
       then testResult a' = Some (mkTestResult true "Connected! Status: demo")
       else exists r, testResult a' = Some r.
Proof.
  unfold Controllers.testConnection. run_hook. unfold lift.
  cbn [core set_core set_testing set_testResult].
  rewrite healthCheck_run.
  destruct (isDemoMode (core a)) eqn:Hd; cbn [orb].
  { eexists. split; [reflexivity |]. cbn. auto. }
  destruct (request "/health/" no_options E (core a)) as [[r | e] w1]; cbn [fst is_resolved negb].
  - destruct (reply_prop r "status") as [st | e1];
      eexists; (split; [reflexivity |]); cbn; eauto.
  - eexists. split; [reflexivity |]. cbn. auto.
Qed.

(** X24.  The breakpoints of [useWindowSize] sort every width into exactly
    one of mobile, tablet and desktop. *)
Theorem breakpoints_partition (width : Z) :
  (Controllers.isMobile width = true
   /\ Controllers.isTablet width = false /\ Controllers.isDesktop width = false)
  \/ (Controllers.isMobile width = false
      /\ Controllers.isTablet width = true /\ Controllers.isDesktop width = false)
  \/ (Controllers.isMobile width = false
      /\ Controllers.isTablet width = false /\ Controllers.isDesktop width = true).
Proof.
  unfold Controllers.isMobile, Controllers.isTablet, Controllers.isDesktop.
  rewrite !Z.geb_leb.
  destruct (Z.ltb_spec width 768), (Z.leb_spec 768 width),
    (Z.ltb_spec width 1024), (Z.leb_spec 1024 width); cbn; try lia; tauto.
Qed.

(* ================================================================== *)
(** ** No fallback while the backend answers *)





